(** * Flight booking simulator: the search filter and the booking workflow

    A shallow embedding of [script.js].  The page keeps two globals
    ([selectedFlight], [bookingDetails]), reads its inputs from form
    fields, draws prices and confirmation numbers from [Math.random],
    and writes one entry of [localStorage].  Here the globals, the
    storage and the touched DOM properties are the fields of an explicit
    page state; the random draws, the clock and the form fields are
    arguments of the handlers. *)

From Stdlib Require Import ZArith Ascii String List Lia Bool.
From stdpp Require Import base option gmap strings.

Import ListNotations.
Local Open Scope string_scope.
Local Open Scope Z_scope.

#[local] Arguments String.append !_ _ / : simpl nomatch.

(** ** JavaScript values used by the script *)

(** A JS string is a [string]: one [ascii] per code unit (the code units
    0..255 are the ones this model can hold). *)

(** [!s] on a string: only the empty string is falsy. *)
Definition falsy (s : string) : bool :=
  match s with
  | EmptyString => true
  | String _ _ => false
  end.

(** The numbers the search compares: an integer or [NaN].  Every
    comparison with [NaN] is false. *)
Inductive number : Type :=
| NaN
| Num (z : Z).

Definition num_le (a b : number) : bool :=
  match a, b with
  | Num x, Num y => x <=? y
  | _, _ => false
  end.

Definition num_lt (a b : number) : bool :=
  match a, b with
  | Num x, Num y => x <? y
  | _, _ => false
  end.

Definition num_ge (a b : number) : bool :=
  match a, b with
  | Num x, Num y => y <=? x
  | _, _ => false
  end.

(** *** [parseInt(string)] with no radix argument *)

(** White space and line terminators among the code units 0..255:
    TAB, LF, VT, FF, CR, SP and NBSP. *)
Definition is_white_space (c : ascii) : bool :=
  let n := nat_of_ascii c in
  ((9 <=? n)%nat && (n <=? 13)%nat) || (n =? 32)%nat || (n =? 160)%nat.

Fixpoint trim_start (s : string) : string :=
  match s with
  | String c s' => if is_white_space c then trim_start s' else s
  | EmptyString => s
  end.

(** The value of a digit in radix 10 or 16, if the code unit is one. *)
Definition digit_value (radix : Z) (c : ascii) : option Z :=
  let n := Z.of_nat (nat_of_ascii c) in
  let v :=
    if (48 <=? n) && (n <=? 57) then Some (n - 48)
    else if (97 <=? n) && (n <=? 122) then Some (n - 97 + 10)
    else if (65 <=? n) && (n <=? 90) then Some (n - 65 + 10)
    else None in
  match v with
  | Some d => if d <? radix then Some d else None
  | None => None
  end.

(** The longest prefix of radix digits, read left to right: the number of
    digits read and their value. *)
Fixpoint read_digits (radix : Z) (s : string) (count : nat) (acc : Z) : nat * Z :=
  match s with
  | String c s' =>
      match digit_value radix c with
      | Some d => read_digits radix s' (S count) (acc * radix + d)
      | None => (count, acc)
      end
  | EmptyString => (count, acc)
  end.

Definition strip_sign (s : string) : Z * string :=
  match s with
  | String "-" s' => (-1, s')
  | String "+" s' => (1, s')
  | _ => (1, s)
  end.

Definition strip_hex_prefix (s : string) : Z * string :=
  match s with
  | String "0" (String "x" s') => (16, s')
  | String "0" (String "X" s') => (16, s')
  | _ => (10, s)
  end.

(** The result is [NaN] or the exact integer the digits spell, which is
    the result of the code for magnitudes up to 2^53; beyond, the code
    returns the nearest double.  (The script compares the result with
    prices below 9000 only, and the nearest double of an integer
    compares with those as the integer does.) *)
Definition parseInt (input : string) : number :=
  let '(sign, s1) := strip_sign (trim_start input) in
  let '(radix, s2) := strip_hex_prefix s1 in
  match read_digits radix s2 O 0 with
  | (O, _) => NaN
  | (_, mathInt) => Num (sign * mathInt)
  end.

(** [s.split(":")[0]]: the part of [s] before the first separator, all
    of [s] when there is none. *)
Fixpoint split_head (sep : ascii) (s : string) : string :=
  match s with
  | String c s' => if Ascii.eqb c sep then EmptyString else String c (split_head sep s')
  | EmptyString => EmptyString
  end.

(** ** Flights *)

Module Offer.

Record t : Type := mk {
  airline : string;
  flight : string;
  time : string;
  price : Z
}.

End Offer.

(** *** Doubles

    [Math.random()] is a double in [0, 1) and [Math.random() * 5000] is
    the double nearest to the product.  A non-negative finite double is
    a whole number of the smallest subnormal [2^-1074], and it is kept
    here as that whole number: [one] is the double 1. *)
Definition one : Z := 2 ^ 1074.

(** Round to nearest, ties to even: a value of more than 53 bits loses
    its [s] low bits and goes to the nearer neighbour. *)
Definition round_double (x : Z) : Z :=
  let s := Z.log2 x + 1 - 53 in
  if s <=? 0 then x
  else
    let q := x / 2 ^ s in
    let rem := x mod 2 ^ s in
    let half := 2 ^ (s - 1) in
    let q' := if (half <? rem) || ((rem =? half) && Z.odd q) then q + 1 else q in
    q' * 2 ^ s.

Definition is_double (x : Z) : bool := (0 <=? x) && (round_double x =? x).

(** [x * k] for a double [x] and an integer constant [k] below [2^53]
    (itself a double): the exact product, rounded. *)
Definition times (x k : Z) : Z := round_double (x * k).

(** [Math.floor(x)], an integer. *)
Definition Math_floor (x : Z) : Z := x / one.

(** What [Math.random()] can return. *)
Definition unit_draw (r : Z) : Prop := is_double r = true /\ r < one.

(** [Math.floor(Math.random() * 5000) + 4000] *)
Definition getPrice (r : Z) : Z := Math_floor (times r 5000) + 4000.

(** The three draws of one search, in the order the array literal
    evaluates them. *)
Record draws : Type := mkDraws { draw1 : Z; draw2 : Z; draw3 : Z }.

Definition unit_draws (d : draws) : Prop :=
  unit_draw (draw1 d) /\ unit_draw (draw2 d) /\ unit_draw (draw3 d).

Definition flights (d : draws) : list Offer.t :=
  [ Offer.mk "Air India" "AI202" "10:00" (getPrice (draw1 d));
    Offer.mk "IndiGo" "6E305" "14:30" (getPrice (draw2 d));
    Offer.mk "SpiceJet" "SG101" "19:45" (getPrice (draw3 d)) ].

(** The arrow function given to [flights.filter]. *)
Definition keep (airline : string) (maxPrice : number) (timeSlot : string)
    (f : Offer.t) : bool :=
  let hour := parseInt (split_head ":" (Offer.time f)) in
  (falsy airline || String.eqb (Offer.airline f) airline) &&
  num_le (Num (Offer.price f)) maxPrice &&
  (falsy timeSlot ||
   (String.eqb timeSlot "morning" && num_lt hour (Num 12)) ||
   (String.eqb timeSlot "afternoon" && num_ge hour (Num 12) && num_lt hour (Num 18)) ||
   (String.eqb timeSlot "evening" && num_ge hour (Num 18))).

Definition filtered (airline : string) (maxPrice : number) (timeSlot : string)
    (d : draws) : list Offer.t :=
  List.filter (keep airline maxPrice timeSlot) (flights d).

(** The values of the form fields the timer callback reads. *)
Record form : Type := mkForm {
  from_value : string;
  to_value : string;
  airline_value : string;
  price_value : string;
  time_value : string
}.

(** The list the callback hands to [displayResults]. *)
Definition search (fm : form) (d : draws) : list Offer.t :=
  filtered (airline_value fm) (parseInt (price_value fm)) (time_value fm) d.

(** ** Numbers and strings as text *)

Definition digit_char (d : Z) : ascii := ascii_of_nat (Z.to_nat (48 + d)).

(** The decimal digits of [n >= 0], most significant first, put in front
    of [acc]. *)
Fixpoint decimal_digits (fuel : nat) (n : Z) (acc : string) : string :=
  match fuel with
  | O => acc
  | S fuel' =>
      let acc' := String (digit_char (n mod 10)) acc in
      if n <? 10 then acc' else decimal_digits fuel' (n / 10) acc'
  end.

Definition decimal (n : Z) : string :=
  decimal_digits (S (Z.to_nat (Z.log2 n))) n EmptyString.

(** [String(n)] for an integer [n] (JavaScript prints integers below
    10^21 in magnitude as plain decimal digits). *)
Definition number_to_string (n : Z) : string :=
  if n <? 0 then String "-" (decimal (- n)) else decimal n.

(** ** JSON *)

(** The values the script serializes: [null], integers, strings and
    objects.  An object is the list of its properties in creation order,
    the order in which [JSON.stringify] writes them and [JSON.parse]
    creates them again (the keys of the script are distinct names). *)
#[local] Unset Elimination Schemes.
Inductive json : Type :=
| JNull
| JNum (n : Z)
| JStr (s : string)
| JObj (members : list (string * json)).
#[local] Set Elimination Schemes.

Definition DQUOTE : ascii := "034"%char.
Definition BACKSLASH : ascii := "092"%char.
Definition LF : ascii := "010"%char.

Definition hex_lower (d : Z) : ascii :=
  if d <? 10 then digit_char d else ascii_of_nat (Z.to_nat (87 + d)).

Definition hex_upper (d : Z) : ascii :=
  if d <? 10 then digit_char d else ascii_of_nat (Z.to_nat (55 + d)).

Definition code (c : ascii) : Z := Z.of_nat (nat_of_ascii c).

(** [QuoteJSONString], one code unit: [\b \t \n \f \r], the quote and the
    backslash have two-character escapes, other control characters
    become [\u00xx]. *)
Definition escape_char (c : ascii) : string :=
  let n := code c in
  if n =? 8 then "\b"
  else if n =? 9 then "\t"
  else if n =? 10 then "\n"
  else if n =? 12 then "\f"
  else if n =? 13 then "\r"
  else if n =? 34 then String BACKSLASH (String DQUOTE EmptyString)
  else if n =? 92 then String BACKSLASH (String BACKSLASH EmptyString)
  else if n <? 32 then
    "\u00" +:+ String (hex_lower (n / 16)) (String (hex_lower (n mod 16)) EmptyString)
  else String c EmptyString.

Fixpoint escape (s : string) : string :=
  match s with
  | EmptyString => EmptyString
  | String c s' => escape_char c +:+ escape s'
  end.

Definition quote (s : string) : string :=
  String DQUOTE (escape s +:+ String DQUOTE EmptyString).

Fixpoint join (sep : string) (parts : list string) : string :=
  match parts with
  | [] => EmptyString
  | [x] => x
  | x :: rest => x +:+ sep +:+ join sep rest
  end.

(** [SerializeJSONProperty] / [SerializeJSONObject]: [gap] is the
    indentation unit and [indent] the current indentation. *)
Fixpoint serialize (gap indent : string) (v : json) : string :=
  match v with
  | JNull => "null"
  | JNum n => number_to_string n
  | JStr s => quote s
  | JObj members =>
      let stepback := indent in
      let indent := indent +:+ gap in
      let partial :=
        List.map (fun kv : string * json =>
                    quote (fst kv) +:+ ":" +:+ (if falsy gap then "" else " ")
                    +:+ serialize gap indent (snd kv)) members in
      match partial with
      | [] => "{}"
      | _ =>
          if falsy gap then "{" +:+ join "," partial +:+ "}"
          else
            let separator := String "," (String LF indent) in
            "{" +:+ String LF indent +:+ join separator partial
            +:+ String LF stepback +:+ "}"
      end
  end.

Fixpoint spaces (n : nat) : string :=
  match n with
  | O => EmptyString
  | S n' => String " " (spaces n')
  end.

(** [JSON.stringify(value)] *)
Definition JSON_stringify (v : json) : string := serialize "" "" v.

(** [JSON.stringify(value, null, space)] with a numeric [space]: the gap
    is [min(10, space)] spaces. *)
Definition JSON_stringify_space (v : json) (space : nat) : string :=
  serialize (spaces (Nat.min 10 space)) "" v.

(** *** [JSON.parse] on the same fragment

    [None] stands for a [SyntaxError] and for a text that holds a value
    outside [json] (a fraction or exponent, [true], [false], an array,
    a code unit above 255). *)

Definition is_json_space (c : ascii) : bool :=
  let n := code c in
  (n =? 9) || (n =? 10) || (n =? 13) || (n =? 32).

Fixpoint skip_ws (s : string) : string :=
  match s with
  | String c s' => if is_json_space c then skip_ws s' else s
  | EmptyString => s
  end.

Definition unescape (e : ascii) : option ascii :=
  let n := code e in
  if n =? 34 then Some DQUOTE
  else if n =? 92 then Some BACKSLASH
  else if n =? 47 then Some "/"%char
  else if n =? 98 then Some "008"%char
  else if n =? 102 then Some "012"%char
  else if n =? 110 then Some "010"%char
  else if n =? 114 then Some "013"%char
  else if n =? 116 then Some "009"%char
  else None.

Definition hex4 (h1 h2 h3 h4 : ascii) : option Z :=
  match digit_value 16 h1, digit_value 16 h2, digit_value 16 h3, digit_value 16 h4 with
  | Some a, Some b, Some c, Some d => Some (((a * 16 + b) * 16 + c) * 16 + d)
  | _, _, _, _ => None
  end.

Definition push (c : ascii) (r : option (string * string)) : option (string * string) :=
  match r with
  | Some (str, rest) => Some (String c str, rest)
  | None => None
  end.

(** The characters of a string literal after its opening quote, up to
    the closing quote: the string and what follows it. *)
Fixpoint parse_chars (s : string) : option (string * string) :=
  match s with
  | EmptyString => None
  | String c s' =>
      if code c =? 34 then Some (EmptyString, s')
      else if code c =? 92 then
        match s' with
        | EmptyString => None
        | String e s'' =>
            if code e =? 117 then
              match s'' with
              | String h1 (String h2 (String h3 (String h4 rest))) =>
                  match hex4 h1 h2 h3 h4 with
                  | Some n =>
                      if n <? 256 then push (ascii_of_nat (Z.to_nat n)) (parse_chars rest)
                      else None
                  | None => None
                  end
              | _ => None
              end
            else
              match unescape e with
              | Some c' => push c' (parse_chars s'')
              | None => None
              end
        end
      else if code c <? 32 then None
      else push c (parse_chars s')
  end.

Fixpoint string_drop (n : nat) (s : string) : string :=
  match n, s with
  | S n', String _ s' => string_drop n' s'
  | _, _ => s
  end.

Definition starts_with_any (cs : list Z) (s : string) : bool :=
  match s with
  | String c _ => existsb (Z.eqb (code c)) cs
  | EmptyString => false
  end.

(** A JSON number without fraction and exponent: an optional minus
    sign, then a single zero or digits that do not start with zero. *)
Definition parse_number (s : string) : option (Z * string) :=
  let '(sign, s1) :=
    match s with
    | String c s' => if code c =? 45 then (-1, s') else (1, s)
    | EmptyString => (1, s)
    end in
  match read_digits 10 s1 O 0 with
  | (O, _) => None
  | (count, n) =>
      let rest := string_drop count s1 in
      if starts_with_any [48] s1 && negb (Nat.eqb count 1) then None
      else if starts_with_any [46; 69; 101] rest then None
      else Some (sign * n, rest)
  end.

Definition strip_null (s : string) : option string :=
  match s with
  | String a (String b (String c (String d rest))) =>
      if (code a =? 110) && (code b =? 117) && (code c =? 108) && (code d =? 108)
      then Some rest else None
  | _ => None
  end.

Fixpoint parse_value (fuel : nat) (s : string) : option (json * string) :=
  match fuel with
  | O => None
  | S fuel' =>
      match skip_ws s with
      | EmptyString => None
      | String c rest as s1 =>
          if code c =? 110 then
            match strip_null s1 with
            | Some rest' => Some (JNull, rest')
            | None => None
            end
          else if code c =? 34 then
            match parse_chars rest with
            | Some (str, rest') => Some (JStr str, rest')
            | None => None
            end
          else if code c =? 123 then
            match skip_ws rest with
            | EmptyString => None
            | String c2 rest2 as s2 =>
                if code c2 =? 125 then Some (JObj [], rest2)
                else
                  match parse_members fuel' s2 with
                  | Some (ms, rest') => Some (JObj ms, rest')
                  | None => None
                  end
            end
          else
            match parse_number s1 with
            | Some (n, rest') => Some (JNum n, rest')
            | None => None
            end
      end
  end
with parse_members (fuel : nat) (s : string) : option (list (string * json) * string) :=
  match fuel with
  | O => None
  | S fuel' =>
      match skip_ws s with
      | EmptyString => None
      | String c rest =>
          if code c =? 34 then
            match parse_chars rest with
            | None => None
            | Some (k, r1) =>
                match skip_ws r1 with
                | EmptyString => None
                | String c1 r2 =>
                    if code c1 =? 58 then
                      match parse_value fuel' r2 with
                      | None => None
                      | Some (v, r3) =>
                          match skip_ws r3 with
                          | EmptyString => None
                          | String c3 r4 =>
                              if code c3 =? 44 then
                                match parse_members fuel' r4 with
                                | Some (ms, r5) => Some ((k, v) :: ms, r5)
                                | None => None
                                end
                              else if code c3 =? 125 then Some ([(k, v)], r4)
                              else None
                          end
                      end
                    else None
                end
            end
          else None
      end
  end.

Definition JSON_parse (text : string) : option json :=
  match parse_value (S (String.length text)) text with
  | Some (v, rest) =>
      match skip_ws rest with
      | EmptyString => Some v
      | String _ _ => None
      end
  | None => None
  end.

(** ** [new Date().toISOString()] *)

(** [width] decimal digits of [n], zero padded, put in front of [acc]. *)
Fixpoint zero_padded (width : nat) (n : Z) (acc : string) : string :=
  match width with
  | O => acc
  | S w => zero_padded w (n / 10) (String (digit_char (n mod 10)) acc)
  end.

Definition msPerDay : Z := 86400000.

(** Within a 400-year era that starts on a 1st of March: the year of
    the era (counted from January), the month (1..12) and the day of the
    month of the day number [doe] of the era. *)
Definition civil_of_doe (doe : Z) : Z * Z * Z :=
  let yoe := (doe - doe / 1460 + doe / 36524 - doe / 146096) / 365 in
  let doy := doe - (365 * yoe + yoe / 4 - yoe / 100) in
  let mp := (5 * doy + 2) / 153 in
  let d := doy - (153 * mp + 2) / 5 + 1 in
  let m := if mp <? 10 then mp + 3 else mp - 9 in
  (yoe + (if m <=? 2 then 1 else 0), m, d).

(** Year, month and day of the month of the day number [day] counted
    from 1970-01-01, in the proleptic Gregorian calendar. *)
Definition civil_from_days (day : Z) : Z * Z * Z :=
  let z := day + 719468 in
  let '(y, m, d) := civil_of_doe (z mod 146097) in
  (y + z / 146097 * 400, m, d).

(** The text of a time value [t] (milliseconds since the epoch, UTC):
    [YYYY-MM-DDTHH:mm:ss.sssZ], with a sign and six digits for a year
    outside 0..9999. *)
Definition toISOString (t : Z) : string :=
  let '(y, m, d) := civil_from_days (t / msPerDay) in
  let tod := t mod msPerDay in
  let clock :=
    String "T" (zero_padded 2 (tod / 3600000)
      (String ":" (zero_padded 2 (tod / 60000 mod 60)
        (String ":" (zero_padded 2 (tod / 1000 mod 60)
          (String "." (zero_padded 3 (tod mod 1000) "Z"))))))) in
  let date :=
    String "-" (zero_padded 2 m (String "-" (zero_padded 2 d clock))) in
  if (0 <=? y) && (y <=? 9999) then zero_padded 4 y date
  else String (if y <? 0 then "-"%char else "+"%char) (zero_padded 6 (Z.abs y) date).

(** *** A checker for that format *)

Definition expect (c : ascii) (s : string) : option string :=
  match s with
  | String c' s' => if Ascii.eqb c c' then Some s' else None
  | EmptyString => None
  end.

(** Exactly [width] decimal digits: their value and the rest. *)
Fixpoint take_digits (width : nat) (acc : Z) (s : string) : option (Z * string) :=
  match width with
  | O => Some (acc, s)
  | S w =>
      match s with
      | String c s' =>
          match digit_value 10 c with
          | Some d => take_digits w (acc * 10 + d) s'
          | None => None
          end
      | EmptyString => None
      end
  end.

Definition take_year (s : string) : option (Z * string) :=
  match s with
  | String c s' =>
      if Ascii.eqb c "+" then take_digits 6 0 s'
      else if Ascii.eqb c "-" then
        match take_digits 6 0 s' with
        | Some (y, r) => if y =? 0 then None else Some (- y, r)
        | None => None
        end
      else take_digits 4 0 s
  | EmptyString => None
  end.

Definition is_leap (y : Z) : bool :=
  ((y mod 4 =? 0) && negb (y mod 100 =? 0)) || (y mod 400 =? 0).

Definition days_in_month (y m : Z) : Z :=
  if m =? 2 then (if is_leap y then 29 else 28)
  else if (m =? 4) || (m =? 6) || (m =? 9) || (m =? 11) then 30
  else 31.

Definition in_range (lo n hi : Z) : bool := (lo <=? n) && (n <=? hi).

(** An ISO-8601 calendar date and UTC time with milliseconds. *)
Definition is_iso8601 (s : string) : bool :=
  match
    '(y, r) ← take_year s;
    r ← expect "-" r;
    '(m, r) ← take_digits 2 0 r;
    r ← expect "-" r;
    '(d, r) ← take_digits 2 0 r;
    r ← expect "T" r;
    '(hh, r) ← take_digits 2 0 r;
    r ← expect ":" r;
    '(mm, r) ← take_digits 2 0 r;
    r ← expect ":" r;
    '(ss, r) ← take_digits 2 0 r;
    r ← expect "." r;
    '(_, r) ← take_digits 3 0 r;
    r ← expect "Z" r;
    Some (falsy r && in_range 1 m 12 && in_range 1 d (days_in_month y m)
          && in_range 0 hh 23 && in_range 0 mm 59 && in_range 0 ss 59)
  with
  | Some b => b
  | None => false
  end.

(** ** [encodeURIComponent] *)

(** The code units left as they are: letters, digits and [-_.!~*'()]. *)
Definition uri_unreserved (c : ascii) : bool :=
  let n := code c in
  in_range 65 n 90 || in_range 97 n 122 || in_range 48 n 57 ||
  existsb (Z.eqb n) [45; 95; 46; 33; 126; 42; 39; 40; 41].

Definition percent (byte : Z) : string :=
  String "%" (String (hex_upper (byte / 16)) (String (hex_upper (byte mod 16)) EmptyString)).

(** The UTF-8 octets of a code unit below 256, percent-encoded. *)
Definition encode_unit (c : ascii) : string :=
  let n := code c in
  if uri_unreserved c then String c EmptyString
  else if n <? 128 then percent n
  else percent (192 + n / 64) +:+ percent (128 + n mod 64).

Fixpoint encodeURIComponent (s : string) : string :=
  match s with
  | EmptyString => EmptyString
  | String c s' => encode_unit c +:+ encodeURIComponent s'
  end.

(** *** [decodeURIComponent], for reading an encoded text back

    [None] stands for a [URIError] and for a code unit above 255. *)

Definition hex2 (h1 h2 : ascii) : option Z :=
  match digit_value 16 h1, digit_value 16 h2 with
  | Some a, Some b => Some (a * 16 + b)
  | _, _ => None
  end.

Definition unit_of (n : Z) : ascii := ascii_of_nat (Z.to_nat n).

Fixpoint decodeURIComponent (s : string) : option string :=
  match s with
  | EmptyString => Some EmptyString
  | String c s' =>
      if code c =? 37 then
        match s' with
        | String h1 (String h2 s'') =>
            match hex2 h1 h2 with
            | Some b =>
                if b <? 128 then option_map (String (unit_of b)) (decodeURIComponent s'')
                else if in_range 194 b 195 then
                  match s'' with
                  | String p (String g1 (String g2 s3)) =>
                      match hex2 g1 g2 with
                      | Some b2 =>
                          if (code p =? 37) && in_range 128 b2 191 then
                            option_map (String (unit_of ((b - 192) * 64 + (b2 - 128))))
                              (decodeURIComponent s3)
                          else None
                      | None => None
                      end
                  | _ => None
                  end
                else None
            | None => None
            end
        | _ => None
        end
      else option_map (String c) (decodeURIComponent s')
  end.

(** ** The page *)

Module Booking.

Record t : Type := mk {
  passenger : string;
  email : string;
  flight : option Offer.t;
  pnr : string;
  timestamp : string
}.

End Booking.

(** The objects as JavaScript sees them, keys in creation order.  A
    [null] flight is [None]. *)
Definition offer_json (f : Offer.t) : json :=
  JObj [ ("airline", JStr (Offer.airline f));
         ("flight", JStr (Offer.flight f));
         ("time", JStr (Offer.time f));
         ("price", JNum (Offer.price f)) ].

Definition flight_json (o : option Offer.t) : json :=
  match o with
  | Some f => offer_json f
  | None => JNull
  end.

Definition booking_json (b : Booking.t) : json :=
  JObj [ ("passenger", JStr (Booking.passenger b));
         ("email", JStr (Booking.email b));
         ("flight", flight_json (Booking.flight b));
         ("pnr", JStr (Booking.pnr b));
         ("timestamp", JStr (Booking.timestamp b)) ].

(** One flight card of the results list. *)
Record card : Type := mkCard {
  card_flight : Offer.t;
  card_from : string;
  card_to : string
}.

(** The anchor [downloadReceipt] clicks. *)
Record link : Type := mkLink {
  href : string;
  download : string
}.

(** The globals, the storage and the DOM properties the script writes.
    [timers] counts the callbacks [setTimeout] has scheduled and not yet
    run; [clicked] lists the download links clicked so far. *)
Record page : Type := mkPage {
  selectedFlight : option Offer.t;
  bookingDetails : option Booking.t;
  localStorage : gmap string string;
  priceValue_innerText : string;
  loader_display : string;
  results : list card;
  bookingForm_display : string;
  pnrDisplay_innerText : string;
  receiptSection_display : string;
  timers : nat;
  clicked : list link
}.

Definition showLoader (s : page) : page :=
  {| selectedFlight := selectedFlight s;
     bookingDetails := bookingDetails s;
     localStorage := localStorage s;
     priceValue_innerText := priceValue_innerText s;
     loader_display := "block";
     results := results s;
     bookingForm_display := bookingForm_display s;
     pnrDisplay_innerText := pnrDisplay_innerText s;
     receiptSection_display := receiptSection_display s;
     timers := timers s;
     clicked := clicked s |}.

Definition hideLoader (s : page) : page :=
  {| selectedFlight := selectedFlight s;
     bookingDetails := bookingDetails s;
     localStorage := localStorage s;
     priceValue_innerText := priceValue_innerText s;
     loader_display := "none";
     results := results s;
     bookingForm_display := bookingForm_display s;
     pnrDisplay_innerText := pnrDisplay_innerText s;
     receiptSection_display := receiptSection_display s;
     timers := timers s;
     clicked := clicked s |}.

(** [displayResults]: the old cards are dropped, one card per flight. *)
Definition displayResults (fl : list Offer.t) (from to : string) (s : page) : page :=
  {| selectedFlight := selectedFlight s;
     bookingDetails := bookingDetails s;
     localStorage := localStorage s;
     priceValue_innerText := priceValue_innerText s;
     loader_display := loader_display s;
     results := List.map (fun f => mkCard f from to) fl;
     bookingForm_display := bookingForm_display s;
     pnrDisplay_innerText := pnrDisplay_innerText s;
     receiptSection_display := receiptSection_display s;
     timers := timers s;
     clicked := clicked s |}.

(** The [input] listener of the price slider. *)
Definition priceInput (value : string) (s : page) : page :=
  {| selectedFlight := selectedFlight s;
     bookingDetails := bookingDetails s;
     localStorage := localStorage s;
     priceValue_innerText := value;
     loader_display := loader_display s;
     results := results s;
     bookingForm_display := bookingForm_display s;
     pnrDisplay_innerText := pnrDisplay_innerText s;
     receiptSection_display := receiptSection_display s;
     timers := timers s;
     clicked := clicked s |}.

(** The [submit] listener: the loader shows and a callback is scheduled. *)
Definition submit (s : page) : page :=
  let s := showLoader s in
  {| selectedFlight := selectedFlight s;
     bookingDetails := bookingDetails s;
     localStorage := localStorage s;
     priceValue_innerText := priceValue_innerText s;
     loader_display := loader_display s;
     results := results s;
     bookingForm_display := bookingForm_display s;
     pnrDisplay_innerText := pnrDisplay_innerText s;
     receiptSection_display := receiptSection_display s;
     timers := S (timers s);
     clicked := clicked s |}.

(** The scheduled callback: it reads the form as it is when it runs. *)
Definition searchCallback (fm : form) (d : draws) (s : page) : page :=
  match timers s with
  | O => s
  | S n =>
      let s :=
        {| selectedFlight := selectedFlight s;
           bookingDetails := bookingDetails s;
           localStorage := localStorage s;
           priceValue_innerText := priceValue_innerText s;
           loader_display := loader_display s;
           results := results s;
           bookingForm_display := bookingForm_display s;
           pnrDisplay_innerText := pnrDisplay_innerText s;
           receiptSection_display := receiptSection_display s;
           timers := n;
           clicked := clicked s |} in
      hideLoader (displayResults (search fm d) (from_value fm) (to_value fm) s)
  end.

Definition openBooking (flight : Offer.t) (s : page) : page :=
  {| selectedFlight := Some flight;
     bookingDetails := bookingDetails s;
     localStorage := localStorage s;
     priceValue_innerText := priceValue_innerText s;
     loader_display := loader_display s;
     results := results s;
     bookingForm_display := "block";
     pnrDisplay_innerText := pnrDisplay_innerText s;
     receiptSection_display := receiptSection_display s;
     timers := timers s;
     clicked := clicked s |}.

(** ["PNR" + Math.floor(Math.random() * 1000000)] *)
Definition makePnr (r : Z) : string :=
  "PNR" +:+ number_to_string (Math_floor (times r 1000000)).

(** [confirmBooking]: [name] and [email] are the values of the two
    inputs, [r] the random draw and [now] the clock.  The record's
    flight is whatever [selectedFlight] holds, [null] included. *)
Definition confirmBooking (name email : string) (r now : Z) (s : page) : page :=
  let pnr := makePnr r in
  let details :=
    {| Booking.passenger := name;
       Booking.email := email;
       Booking.flight := selectedFlight s;
       Booking.pnr := pnr;
       Booking.timestamp := toISOString now |} in
  {| selectedFlight := selectedFlight s;
     bookingDetails := Some details;
     localStorage := <["booking" := JSON_stringify (booking_json details)]> (localStorage s);
     priceValue_innerText := priceValue_innerText s;
     loader_display := loader_display s;
     results := results s;
     bookingForm_display := "none";
     pnrDisplay_innerText := "Your PNR: " +:+ pnr;
     receiptSection_display := "block";
     timers := timers s;
     clicked := clicked s |}.

Inductive error : Type :=
| TypeError.

(** [downloadReceipt]: with [bookingDetails] still [null] the read of
    [bookingDetails.pnr] throws before the link is used. *)
Definition downloadReceipt (s : page) : page * option error :=
  match bookingDetails s with
  | None => (s, Some TypeError)
  | Some details =>
      let dataStr :=
        "data:text/json;charset=utf-8,"
        +:+ encodeURIComponent (JSON_stringify_space (booking_json details) 2) in
      let a := {| href := dataStr;
                  download := "booking_" +:+ Booking.pnr details +:+ ".json" |} in
      ({| selectedFlight := selectedFlight s;
          bookingDetails := bookingDetails s;
          localStorage := localStorage s;
          priceValue_innerText := priceValue_innerText s;
          loader_display := loader_display s;
          results := results s;
          bookingForm_display := bookingForm_display s;
          pnrDisplay_innerText := pnrDisplay_innerText s;
          receiptSection_display := receiptSection_display s;
          timers := timers s;
          clicked := clicked s ++ [a] |}, None)
  end.

(** *** Sessions *)

Inductive event : Type :=
| PriceInput (value : string)
| Submit
| Timer (fm : form) (d : draws)
| OpenBooking (flight : Offer.t)
| ConfirmBooking (name email : string) (r now : Z)
| DownloadReceipt.

Definition step (s : page) (e : event) : page * option error :=
  match e with
  | PriceInput v => (priceInput v s, None)
  | Submit => (submit s, None)
  | Timer fm d => (searchCallback fm d s, None)
  | OpenBooking f => (openBooking f s, None)
  | ConfirmBooking name email r now => (confirmBooking name email r now s, None)
  | DownloadReceipt => downloadReceipt s
  end.

(** A handler that throws leaves the page as it was at the throw; the
    next event is handled from there. *)
Definition run (s : page) (es : list event) : page :=
  fold_left (fun s e => fst (step s e)) es s.

(** A page as the script's first two lines leave it. *)
Definition fresh (s : page) : Prop :=
  selectedFlight s = None /\ bookingDetails s = None.

Definition blank : page :=
  {| selectedFlight := None;
     bookingDetails := None;
     localStorage := ∅;
     priceValue_innerText := "";
     loader_display := "none";
     results := [];
     bookingForm_display := "none";
     pnrDisplay_innerText := "";
     receiptSection_display := "none";
     timers := O;
     clicked := [] |}.

(** ** The search contract in the specification's words *)

(** The hour of an ["HH:MM"] time: its two leading digits. *)
Definition departure_hour (t : string) : option Z :=
  match take_digits 2 0 t with
  | Some (h, _) => Some h
  | None => None
  end.

(** morning is [0,12), afternoon [12,18), evening [18,24). *)
Definition in_time_slot (slot : string) (h : Z) : bool :=
  if String.eqb slot "morning" then (0 <=? h) && (h <? 12)
  else if String.eqb slot "afternoon" then (12 <=? h) && (h <? 18)
  else if String.eqb slot "evening" then (18 <=? h) && (h <? 24)
  else false.

(** A filter is set when its field is not empty. *)
Definition satisfies (airlineFilter : string) (maxPrice : Z) (timeSlot : string)
    (f : Offer.t) : bool :=
  (if falsy airlineFilter then true else String.eqb (Offer.airline f) airlineFilter) &&
  (Offer.price f <=? maxPrice) &&
  (if falsy timeSlot then true
   else match departure_hour (Offer.time f) with
        | Some h => in_time_slot timeSlot h
        | None => false
        end).

(** The confirmation code pattern: [PNR], then one to six digits, and
    nothing else. *)
Fixpoint all_digits (s : string) : bool :=
  match s with
  | EmptyString => true
  | String c s' => in_range 48 (code c) 57 && all_digits s'
  end.

Definition matches_PNR (s : string) : bool :=
  match s with
  | String "P" (String "N" (String "R" ds)) =>
      all_digits ds && (1 <=? String.length ds)%nat && (String.length ds <=? 6)%nat
  | _ => false
  end.

(** ** Sessions in the specification's words *)

(** The offer a session has selected last, if any. *)
Definition last_selected (init : option Offer.t) (es : list event) : option Offer.t :=
  fold_left (fun o e => match e with OpenBooking f => Some f | _ => o end) es init.

(** "A BookingRecord can only be created if a FlightOffer was previously
    selected in the same session": a session that ends in a confirmation
    and has a booking record has selected an offer before. *)
Definition booking_requires_selection : Prop :=
  forall (es : list event) (name email : string) (r now : Z),
    bookingDetails (run blank (es ++ [ConfirmBooking name email r now])) <> None ->
    exists f, In (OpenBooking f) es.

(** [JSON.parse(localStorage.getItem("booking"))] *)
Definition stored_booking (s : page) : option json :=
  match localStorage s !! "booking" with
  | Some text => JSON_parse text
  | None => None
  end.

Definition is_confirm (e : event) : bool :=
  match e with
  | ConfirmBooking _ _ _ _ => true
  | _ => false
  end.

(** The record in memory and the text stored under ["booking"] agree. *)
Definition stored_agrees (s : page) : Prop :=
  exists b, bookingDetails s = Some b /\ stored_booking s = Some (booking_json b).

(** ** The Book button of a card *)

(** The [onclick] attribute [displayResults] writes for a flight: a call
    of [openBooking] on the JSON text of the flight. *)
Definition book_onclick (f : Offer.t) : string :=
  "openBooking(" +:+ JSON_stringify (offer_json f) +:+ ")".

(** The arrow and the rupee sign of the template lie outside the 8-bit
    code units of these strings; they stand as the bytes the source file
    has for them. *)
Definition ARROW : string := String "226" (String "134" (String "146" EmptyString)).
Definition RUPEE : string := String "226" (String "130" (String "185" EmptyString)).

(** The template literal of [displayResults]: the text assigned to the
    [innerHTML] of a card.  The airline, the flight number, the two
    cities and the time are written into it as they are. *)
Definition card_innerHTML (c : card) : string :=
  let f := card_flight c in
  String LF "      <p><strong>" +:+ Offer.airline f +:+ "</strong> ("
  +:+ Offer.flight f +:+ ")</p>"
  +:+ String LF "      <p>" +:+ card_from c +:+ " " +:+ ARROW +:+ " " +:+ card_to c +:+ "</p>"
  +:+ String LF "      <p>Departure: " +:+ Offer.time f +:+ "</p>"
  +:+ String LF "      <p>Price: " +:+ RUPEE +:+ number_to_string (Offer.price f) +:+ "</p>"
  +:+ String LF "      <button onclick='" +:+ book_onclick f +:+ "'>Book</button>"
  +:+ String LF "    ".

Fixpoint strip_prefix (p s : string) : option string :=
  match p, s with
  | EmptyString, _ => Some s
  | String a p', String b s' => if Ascii.eqb a b then strip_prefix p' s' else None
  | String _ _, EmptyString => None
  end.

(** The tags the HTML tokenizer emits; character data makes text and no
    element, and is left out. *)
Inductive tag : Type :=
| StartTag (name : string) (attributes : list (string * string))
| EndTag (name : string).

(** The states of the HTML tokenizer that the markup of a card goes
    through, with the tag under construction. *)
Inductive tokenizer : Type :=
| Data
| TagOpen
| EndTagOpen
| TagName (closing : bool) (name : string)
| BeforeAttributeName (name : string)
| AttributeName (name attribute : string)
| BeforeAttributeValue (name attribute : string)
| AttributeValueSingleQuoted (name attribute value : string)
| AfterAttributeValueQuoted (name attribute value : string).

Definition is_lower (c : ascii) : bool := (97 <=? code c) && (code c <=? 122).

Definition snoc (s : string) (c : ascii) : string := s +:+ String c EmptyString.

(** One code unit in one state: the next state and the tag emitted, if
    any.  Only a fragment of the tokenizer is modelled: tags with names
    and attribute names in lower-case letters, one space before the one
    single-quoted attribute of a start tag, no attribute in an end tag.
    [None] for everything else: an ampersand (a character reference), a
    comment or declaration, a NUL or CR in an attribute value. *)
Definition tokenizer_step (st : tokenizer) (c : ascii) : option (tokenizer * option tag) :=
  match st with
  | Data =>
      if code c =? 60 then Some (TagOpen, None)
      else if code c =? 38 then None
      else Some (Data, None)
  | TagOpen =>
      if code c =? 47 then Some (EndTagOpen, None)
      else if is_lower c then Some (TagName false (String c EmptyString), None)
      else None
  | EndTagOpen =>
      if is_lower c then Some (TagName true (String c EmptyString), None) else None
  | TagName closing name =>
      if is_lower c then Some (TagName closing (snoc name c), None)
      else if code c =? 62
      then Some (Data, Some (if closing then EndTag name else StartTag name []))
      else if (code c =? 32) && negb closing then Some (BeforeAttributeName name, None)
      else None
  | BeforeAttributeName name =>
      if is_lower c then Some (AttributeName name (String c EmptyString), None) else None
  | AttributeName name a =>
      if is_lower c then Some (AttributeName name (snoc a c), None)
      else if code c =? 61 then Some (BeforeAttributeValue name a, None)
      else None
  | BeforeAttributeValue name a =>
      if code c =? 39 then Some (AttributeValueSingleQuoted name a EmptyString, None)
      else None
  | AttributeValueSingleQuoted name a v =>
      if code c =? 39 then Some (AfterAttributeValueQuoted name a v, None)
      else if (code c =? 38) || (code c =? 0) || (code c =? 13) then None
      else Some (AttributeValueSingleQuoted name a (snoc v c), None)
  | AfterAttributeValueQuoted name a v =>
      if code c =? 62 then Some (Data, Some (StartTag name [(a, v)])) else None
  end.

(** The tokenizer run over a text from a state: the state reached and
    the tags emitted on the way. *)
Fixpoint feed (st : tokenizer) (s : string) : option (tokenizer * list tag) :=
  match s with
  | EmptyString => Some (st, [])
  | String c s' =>
      match tokenizer_step st c with
      | Some (st', t) =>
          match feed st' s' with
          | Some (st'', ts) =>
              Some (st'', match t with
                          | Some t => t :: ts
                          | None => ts
                          end)
          | None => None
          end
      | None => None
      end
  end.

(** The tags of a markup; the text has to end outside a tag. *)
Definition tokenize (s : string) : option (list tag) :=
  match feed Data s with
  | Some (Data, ts) => Some ts
  | _ => None
  end.

(** The tags handled here are those of [p], [strong] and [button], with
    attributes on a button only: inside the [div] of a card, each start
    tag of a button then opens one button, and a click on it runs no
    handler of another element of the card. *)
Definition known_tag (t : tag) : bool :=
  match t with
  | StartTag name attributes =>
      String.eqb name "button"
      || ((String.eqb name "p" || String.eqb name "strong")
          && match attributes with
             | [] => true
             | _ :: _ => false
             end)
  | EndTag name =>
      String.eqb name "p" || String.eqb name "strong" || String.eqb name "button"
  end.

(** The attributes of the buttons of a markup, in order. *)
Fixpoint buttons (ts : list tag) : list (list (string * string)) :=
  match ts with
  | StartTag name attributes :: ts' =>
      if String.eqb name "button" then attributes :: buttons ts' else buttons ts'
  | EndTag _ :: ts' => buttons ts'
  | [] => []
  end.

(** The handler text of the one button of a markup.  [None] when the
    markup is outside the fragment above, holds a tag that is not
    handled, or has not exactly one button with [onclick] as its one
    attribute. *)
Definition onclick_of (markup : string) : option string :=
  match tokenize markup with
  | Some ts =>
      if forallb known_tag ts then
        match buttons ts with
        | [ [(a, v)] ] => if String.eqb a "onclick" then Some v else None
        | _ => None
        end
      else None
  | None => None
  end.

(** The argument of the call in the handler text: the object literal,
    read as the JSON text it is. *)
Definition call_argument (src : string) : option json :=
  match strip_prefix "openBooking(" src with
  | Some r =>
      match parse_value (S (String.length r)) r with
      | Some (v, rest) => if String.eqb (skip_ws rest) ")" then Some v else None
      | None => None
      end
  | None => None
  end.

(** An object with the four properties of a flight, as a flight. *)
Definition offer_of_json (v : json) : option Offer.t :=
  match v with
  | JObj [ (k1, JStr a); (k2, JStr f); (k3, JStr t); (k4, JNum p) ] =>
      if String.eqb k1 "airline" && String.eqb k2 "flight"
         && String.eqb k3 "time" && String.eqb k4 "price"
      then Some (Offer.mk a f t p) else None
  | _ => None
  end.

(** A click on the Book button of a card: the markup of the card is
    parsed, the handler text of its button is read and run, with
    [openBooking] the function of the script; the card stands in no
    form, so that the click does nothing else.  [None] when the markup
    or the handler text is outside what is modelled here. *)
Definition clickBook (c : card) (s : page) : option page :=
  match onclick_of (card_innerHTML c) with
  | Some src =>
      match call_argument src with
      | Some v =>
          match offer_of_json v with
          | Some f => Some (openBooking f s)
          | None => None
          end
      | None => None
      end
  | None => None
  end.

(** ** More vocabulary for sessions *)

(** The link [downloadReceipt] clicks for a record. *)
Definition receipt_anchor (b : Booking.t) : link :=
  {| href := "data:text/json;charset=utf-8,"
             +:+ encodeURIComponent (JSON_stringify_space (booking_json b) 2);
     download := "booking_" +:+ Booking.pnr b +:+ ".json" |}.

Definition is_download (e : event) : bool :=
  match e with
  | DownloadReceipt => true
  | _ => false
  end.

Definition is_open (e : event) : bool :=
  match e with
  | OpenBooking _ => true
  | _ => false
  end.

Definition is_price_input (e : event) : bool :=
  match e with
  | PriceInput _ => true
  | _ => false
  end.

(** The receipt on the page shows the code of the record in memory. *)
Definition receipt_shown (s : page) : Prop :=
  exists b, bookingDetails s = Some b /\
            receiptSection_display s = "block" /\
            pnrDisplay_innerText s = "Your PNR: " +:+ Booking.pnr b.

(** Every code unit of a text is one [encodeURIComponent] leaves alone,
    or a percent sign. *)
Fixpoint uri_text (s : string) : bool :=
  match s with
  | EmptyString => true
  | String c s' => (uri_unreserved c || (code c =? 37)) && uri_text s'
  end.

(** No code unit of a text is among the given ones. *)
Fixpoint free_of (cs : list Z) (s : string) : bool :=
  match s with
  | EmptyString => true
  | String c s' => negb (existsb (Z.eqb (code c)) cs) && free_of cs s'
  end.

(** ** Vocabulary of the proofs *)

(** The tags of the markup of a card. *)
Definition card_tags (f : Offer.t) : list tag :=
  [ StartTag "p" []; StartTag "strong" []; EndTag "strong"; EndTag "p";
    StartTag "p" []; EndTag "p";
    StartTag "p" []; EndTag "p";
    StartTag "p" []; EndTag "p";
    StartTag "button" [("onclick", book_onclick f)]; EndTag "button" ].

(** What may follow a number in a JSON text. *)
Definition number_end (rest : string) : bool :=
  match rest with
  | EmptyString => true
  | String c _ =>
      match digit_value 10 c with
      | Some _ => false
      | None => negb (starts_with_any [46; 69; 101] rest)
      end
  end.

(** Induction over a value and, in an object, over its members. *)
Fixpoint json_induction (P : json -> Prop)
    (Hnull : P JNull) (Hnum : forall n, P (JNum n)) (Hstr : forall s, P (JStr s))
    (Hobj : forall ms, Forall (fun kv => P (snd kv)) ms -> P (JObj ms))
    (v : json) : P v :=
  match v with
  | JNull => Hnull
  | JNum n => Hnum n
  | JStr s => Hstr s
  | JObj ms =>
      Hobj ms
        ((fix all (l : list (string * json)) : Forall (fun kv => P (snd kv)) l :=
            match l with
            | [] => List.Forall_nil _
            | kv :: l' =>
                @List.Forall_cons _ _ kv l' (json_induction P Hnull Hnum Hstr Hobj (snd kv)) (all l')
            end) ms)
  end.

(** The fuel a value needs: one unit per value and per member. *)
Fixpoint json_size (v : json) : nat :=
  match v with
  | JObj ms => S (list_sum (List.map (fun kv => S (json_size (snd kv))) ms))
  | _ => 1
  end.

Definition members_size (ms : list (string * json)) : nat :=
  list_sum (List.map (fun kv => S (json_size (snd kv))) ms).

Fixpoint only_spaces (s : string) : bool :=
  match s with
  | EmptyString => true
  | String c s' => is_json_space c && only_spaces s'
  end.

Definition member_text (gap indent : string) (kv : string * json) : string :=
  quote (fst kv) +:+ ":" +:+ (if falsy gap then "" else " ")
  +:+ serialize gap indent (snd kv).

(** A value whose text, followed by anything that ends a number, parses
    back to the value and leaves what followed. *)
Definition reads_back (v : json) : Prop :=
  forall (gap indent rest : string) (fuel : nat),
    only_spaces gap = true -> only_spaces indent = true ->
    number_end rest = true -> (json_size v <= fuel)%nat ->
    parse_value fuel (serialize gap indent v +:+ rest) = Some (v, rest).

(** Case analysis on a decimal digit. *)
Ltac each_digit d H :=
  let C := fresh in
  assert (C : d = 0 \/ d = 1 \/ d = 2 \/ d = 3 \/ d = 4 \/
              d = 5 \/ d = 6 \/ d = 7 \/ d = 8 \/ d = 9) by lia;
  repeat (destruct C as [C | C]; [subst d |]); [.. | subst d].

(** A list of code units is part of another. *)
Ltac sublist := cbn [In]; intros ? ?; tauto.

(** * The definitions at work *)

Example parseInt_digits : parseInt "9000" = Num 9000.
Proof. reflexivity. Qed.

Example parseInt_prefix : parseInt "  42px" = Num 42.
Proof. reflexivity. Qed.

Example parseInt_hex : parseInt "-0x1F" = Num (-31).
Proof. reflexivity. Qed.

Example parseInt_no_digits : parseInt "abc" = NaN /\ parseInt "" = NaN /\ parseInt "0x" = NaN.
Proof. repeat split. Qed.

Example getPrice_least : getPrice 0 = 4000.
Proof. reflexivity. Qed.

Example getPrice_half : getPrice (2 ^ 1073) = 6500.
Proof. vm_compute. reflexivity. Qed.

(** The largest double below one is [1 - 2^-53]. *)
Example getPrice_greatest : getPrice (2 ^ 1074 - 2 ^ 1021) = 8999.
Proof. vm_compute. reflexivity. Qed.

Example search_any :
  List.map Offer.flight
    (search (mkForm "DEL" "BOM" "" "7000" "") (mkDraws 0 (2 ^ 1073) (2 ^ 1074 - 2 ^ 1021))) =
  ["AI202"; "6E305"].
Proof. vm_compute. reflexivity. Qed.

Example toISOString_epoch : toISOString 0 = "1970-01-01T00:00:00.000Z".
Proof. reflexivity. Qed.

Example toISOString_leap_day : toISOString 1709251199999 = "2024-02-29T23:59:59.999Z".
Proof. vm_compute. reflexivity. Qed.

Example toISOString_latest : toISOString 8640000000000000 = "+275760-09-13T00:00:00.000Z".
Proof. vm_compute. reflexivity. Qed.

Example makePnr_quarter : makePnr (2 ^ 1072) = "PNR250000".
Proof. vm_compute. reflexivity. Qed.

Example encodeURIComponent_text :
  encodeURIComponent "{ a@x.com: 14:30 }" = "%7B%20a%40x.com%3A%2014%3A30%20%7D".
Proof. reflexivity. Qed.

Example receipt_link :
  clicked (run blank [OpenBooking (Offer.mk "IndiGo" "6E305" "14:30" 5250);
                      ConfirmBooking "Alice" "a@x.com" (2 ^ 1072) 0;
                      DownloadReceipt]) =
  [ {| href :=
         "data:text/json;charset=utf-8,%7B%0A%20%20%22passenger%22%3A%20%22Alice%22%2C%0A%20%20%22email%22%3A%20%22a%40x.com%22%2C%0A%20%20%22flight%22%3A%20%7B%0A%20%20%20%20%22airline%22%3A%20%22IndiGo%22%2C%0A%20%20%20%20%22flight%22%3A%20%226E305%22%2C%0A%20%20%20%20%22time%22%3A%20%2214%3A30%22%2C%0A%20%20%20%20%22price%22%3A%205250%0A%20%20%7D%2C%0A%20%20%22pnr%22%3A%20%22PNR250000%22%2C%0A%20%20%22timestamp%22%3A%20%221970-01-01T00%3A00%3A00.000Z%22%0A%7D";
       download := "booking_PNR250000.json" |} ].
Proof. vm_compute. reflexivity. Qed.

Example download_without_booking : downloadReceipt blank = (blank, Some TypeError).
Proof. reflexivity. Qed.

(** * Properties of the search *)

(** The two shapes of a rounded value: exact below 53 bits, otherwise a
    53-bit multiple [q'] of [2^s], one of the two neighbours of [x], the
    upper one only from the midpoint on. *)
Lemma round_double_cases (x : Z) :
  0 <= x ->
  let s := Z.log2 x + 1 - 53 in
  (s <= 0 /\ round_double x = x) \/
  (0 < s /\ exists q', round_double x = q' * 2 ^ s /\
                       x / 2 ^ s <= q' <= x / 2 ^ s + 1 /\
                       (q' = x / 2 ^ s + 1 -> 2 ^ (s - 1) <= x mod 2 ^ s)).
Proof.
  intros Hx s. unfold round_double. fold s.
  destruct (s <=? 0) eqn:E.
  - left. apply Z.leb_le in E. now split.
  - right. apply Z.leb_gt in E. split; [exact E |].
    destruct ((2 ^ (s - 1) <? x mod 2 ^ s) || ((x mod 2 ^ s =? 2 ^ (s - 1)) && Z.odd (x / 2 ^ s))) eqn:Eup.
    + exists (x / 2 ^ s + 1). split; [reflexivity |]. split; [lia |]. intros _.
      apply orb_true_iff in Eup as [Eup | Eup].
      * apply Z.ltb_lt in Eup. lia.
      * apply andb_true_iff in Eup as [Eup _]. apply Z.eqb_eq in Eup. lia.
    + exists (x / 2 ^ s). split; [reflexivity |]. split; [lia |]. lia.
Qed.

Lemma round_double_nonneg (x : Z) : 0 <= x -> 0 <= round_double x.
Proof.
  intros Hx. destruct (round_double_cases x Hx) as [[_ ->] | [Hs (q' & -> & Hq & _)]];
    [exact Hx |].
  assert (0 < 2 ^ (Z.log2 x + 1 - 53)) by (apply Z.pow_pos_nonneg; lia).
  assert (0 <= x / 2 ^ (Z.log2 x + 1 - 53)) by (apply Z.div_pos; lia).
  nia.
Qed.

(** A double below [2^E] is at most the largest double below it. *)
Lemma double_below_pow2 (E r : Z) :
  53 <= E -> 0 <= r -> round_double r = r -> r < 2 ^ E ->
  r <= 2 ^ E - 2 ^ (E - 53).
Proof.
  intros HE H0 Hr Hlt.
  assert (HE1 : 2 ^ E = 2 * 2 ^ (E - 1))
    by (rewrite <- Z.pow_succ_r by lia; f_equal; lia).
  assert (HE53 : 2 ^ E = 2 ^ 53 * 2 ^ (E - 53))
    by (rewrite <- Z.pow_add_r by lia; f_equal; lia).
  assert (Hp : 0 < 2 ^ (E - 53)) by (apply Z.pow_pos_nonneg; lia).
  destruct (Z_lt_le_dec r (2 ^ (E - 1))) as [Hs | Hb].
  - assert (2 ^ 53 = 9007199254740992) by reflexivity.
    set (U := 2 ^ (E - 53)) in *. clearbody U. lia.
  - assert (HL : Z.log2 r = E - 1).
    { apply Z.log2_unique; [lia |]. split; [exact Hb |].
      replace (Z.succ (E - 1)) with E by lia. exact Hlt. }
    destruct (round_double_cases r H0) as [[Hs _] | [_ (q' & Hq' & _)]].
    { assert (E53 : E = 53) by lia. subst E. change (2 ^ (53 - 53)) with 1. lia. }
    rewrite HL in Hq'. replace (E - 1 + 1 - 53) with (E - 53) in Hq' by lia.
    rewrite Hr in Hq'.
    assert (q' < 2 ^ 53).
    { apply Z.mul_lt_mono_pos_r with (p := 2 ^ (E - 53)); [exact Hp |]. lia. }
    rewrite HE53, Hq'.
    replace (2 ^ 53 * 2 ^ (E - 53) - 2 ^ (E - 53)) with ((2 ^ 53 - 1) * 2 ^ (E - 53)) by ring.
    apply Z.mul_le_mono_nonneg_r; lia.
Qed.

(** [Math.floor(r * N)] for a draw [r] and an integer [N] that is not a
    power of two: the product, rounded, stays below [N]. *)
Lemma scaled_range (E N j r : Z) :
  53 <= E -> 0 <= j <= 52 -> 2 ^ j < N < 2 ^ (j + 1) ->
  0 <= r <= 2 ^ E - 2 ^ (E - 53) ->
  0 <= round_double (r * N) < N * 2 ^ E.
Proof.
  intros HE Hj HN Hr.
  assert (HNpos : 0 < N) by (assert (0 < 2 ^ j) by (apply Z.pow_pos_nonneg; lia); lia).
  assert (Hx : 0 <= r * N) by (apply Z.mul_nonneg_nonneg; lia).
  assert (H1 : 0 < 2 ^ E) by (apply Z.pow_pos_nonneg; lia).
  assert (H21 : 0 < 2 ^ (E - 53)) by (apply Z.pow_pos_nonneg; lia).
  assert (Hxle : r * N <= N * 2 ^ E - N * 2 ^ (E - 53)).
  { rewrite <- Z.mul_sub_distr_l, (Z.mul_comm r N). apply Z.mul_le_mono_nonneg_l; lia. }
  split; [now apply round_double_nonneg |].
  destruct (round_double_cases (r * N) Hx) as [[_ ->] | [Hs (q' & -> & Hq & Hup)]]; [lia |].
  set (x := r * N) in *. set (s := Z.log2 x + 1 - 53) in *.
  assert (Hxpos : 0 < x).
  { destruct (Z.eq_dec x 0) as [E0 | E0]; [| lia].
    unfold s in Hs. rewrite E0 in Hs. simpl in Hs. lia. }
  destruct (Z.log2_spec x Hxpos) as [Hlo Hhi].
  assert (Hs53 : 2 ^ Z.succ (Z.log2 x) = 2 ^ 53 * 2 ^ s).
  { rewrite <- Z.pow_add_r by lia. f_equal. unfold s. lia. }
  assert (Hps : 0 < 2 ^ s) by (apply Z.pow_pos_nonneg; lia).
  pose proof (Z.div_mod x (2 ^ s) ltac:(lia)) as Hdm.
  pose proof (Z.mod_pos_bound x (2 ^ s) Hps) as Hrem.
  assert (Hq53 : x / 2 ^ s < 2 ^ 53) by (apply Z.div_lt_upper_bound; lia).
  assert (HNE : N * 2 ^ E < 2 ^ (j + 1 + E)).
  { rewrite Z.pow_add_r by lia. apply Z.mul_lt_mono_pos_r; lia. }
  assert (HLmax : Z.log2 x < j + 1 + E) by (apply Z.log2_lt_pow2; lia).
  destruct (Z_lt_le_dec (Z.log2 x) (E + j)) as [Hlow | Htop].
  - (* the rounded value is at most the next power of two *)
    assert (Hle1 : q' * 2 ^ s <= 2 ^ 53 * 2 ^ s) by (apply Z.mul_le_mono_nonneg_r; lia).
    assert (Hle2 : 2 ^ Z.succ (Z.log2 x) <= 2 ^ (E + j)) by (apply Z.pow_le_mono_r; lia).
    assert (Hle3 : 2 ^ (E + j) < N * 2 ^ E).
    { rewrite Z.pow_add_r, Z.mul_comm by lia. apply Z.mul_lt_mono_pos_r; lia. }
    lia.
  - (* the top binade: the product is more than half a step below N *)
    assert (Es : s = E - 52 + j) by (unfold s; lia).
    assert (HT : N * 2 ^ E = (N * 2 ^ (52 - j)) * 2 ^ s).
    { rewrite Es, <- Z.mul_assoc, <- Z.pow_add_r by lia. do 2 f_equal. lia. }
    assert (Hhalf : 2 ^ s = 2 * 2 ^ (s - 1)).
    { rewrite <- Z.pow_succ_r by lia. f_equal. lia. }
    assert (Hstep : 2 ^ (s - 1) < N * 2 ^ (E - 53)).
    { replace (s - 1) with (j + (E - 53)) by lia. rewrite Z.pow_add_r by lia.
      apply Z.mul_lt_mono_pos_r; lia. }
    set (T := N * 2 ^ (52 - j)) in *.
    assert (HqT : x / 2 ^ s < T).
    { apply Z.div_lt_upper_bound; [exact Hps |]. rewrite Z.mul_comm, <- HT. lia. }
    assert (Hq' : q' <= T - 1).
    { destruct (Z.eq_dec q' (x / 2 ^ s + 1)) as [Eup | Edown]; [| lia].
      specialize (Hup Eup).
      destruct (Z.eq_dec (x / 2 ^ s) (T - 1)) as [ET | ET]; [| lia].
      rewrite ET in Hdm. rewrite HT in Hxle.
      replace (2 ^ s * (T - 1)) with (T * 2 ^ s - 2 ^ s) in Hdm by ring. lia. }
    rewrite HT. apply Z.mul_lt_mono_pos_r; lia.
Qed.

(** A value of at most 53 significant bits is a double. *)
Lemma round_double_exact (m e : Z) :
  0 <= m < 2 ^ 53 -> 0 <= e -> round_double (m * 2 ^ e) = m * 2 ^ e.
Proof.
  intros Hm He.
  assert (Hpe : 0 < 2 ^ e) by (apply Z.pow_pos_nonneg; lia).
  assert (Hx : 0 <= m * 2 ^ e) by (apply Z.mul_nonneg_nonneg; lia).
  destruct (round_double_cases (m * 2 ^ e) Hx) as [[_ E] | [Hs (q' & -> & Hq & Hup)]];
    [exact E |].
  set (x := m * 2 ^ e) in *. set (s := Z.log2 x + 1 - 53) in *.
  assert (Hxpos : 0 < x).
  { destruct (Z.eq_dec x 0) as [E0 | E0]; [| lia].
    unfold s in Hs. rewrite E0 in Hs. simpl in Hs. lia. }
  assert (Hse : s <= e).
  { assert (Z.log2 x < 53 + e); [| unfold s; lia].
    apply Z.log2_lt_pow2; [exact Hxpos |]. rewrite Z.pow_add_r by lia.
    unfold x. apply Z.mul_lt_mono_pos_r; lia. }
  assert (Hps : 0 < 2 ^ s) by (apply Z.pow_pos_nonneg; lia).
  assert (Hsplit : x = m * 2 ^ (e - s) * 2 ^ s).
  { unfold x. rewrite <- Z.mul_assoc, <- Z.pow_add_r by lia. do 2 f_equal. lia. }
  assert (Hdiv : x / 2 ^ s = m * 2 ^ (e - s)) by (rewrite Hsplit; apply Z.div_mul; lia).
  assert (Hmod : x mod 2 ^ s = 0) by (rewrite Hsplit; apply Z.mod_mul; lia).
  assert (Hhalf : 0 < 2 ^ (s - 1)) by (apply Z.pow_pos_nonneg; lia).
  assert (Eq : q' = x / 2 ^ s).
  { destruct (Z.eq_dec q' (x / 2 ^ s + 1)) as [Eup | Edown]; [| lia].
    specialize (Hup Eup). lia. }
  rewrite Eq, Hdiv. symmetry. exact Hsplit.
Qed.

(** Every integer below [N] is the floor of some double below [2^E]
    times [N]. *)
Lemma scaled_onto (E N j p : Z) :
  53 <= E -> 0 <= j <= 52 -> 2 ^ j < N < 2 ^ (j + 1) -> N <= 2 ^ (52 - j) ->
  0 <= p < N ->
  let r := (p * 2 ^ (52 - j) + N - 1) / N * 2 ^ (E - 52 + j) in
  0 <= r < 2 ^ E /\ round_double r = r /\ round_double (r * N) / 2 ^ E = p.
Proof.
  intros HE Hj HN Hsmall Hp r.
  set (c := (p * 2 ^ (52 - j) + N - 1) / N) in *.
  set (P := 2 ^ (52 - j)) in *.
  assert (HP : 0 < P) by (apply Z.pow_pos_nonneg; lia).
  assert (HNpos : 0 < N) by (assert (0 < 2 ^ j) by (apply Z.pow_pos_nonneg; lia); lia).
  pose proof (Z.div_mod (p * P + N - 1) N ltac:(lia)) as Hdm. fold c in Hdm.
  pose proof (Z.mod_pos_bound (p * P + N - 1) N HNpos) as Hrem.
  assert (HpP : 0 <= p * P) by (apply Z.mul_nonneg_nonneg; lia).
  assert (Hc0 : 0 <= c) by (apply Z.div_pos; lia).
  assert (HcN : p * P <= c * N <= p * P + N - 1) by lia.
  assert (HpP' : (p + 1) * P <= N * P) by (apply Z.mul_le_mono_nonneg_r; lia).
  assert (HcNP : c * N < N * P) by lia.
  assert (HcP : c < P).
  { apply Z.mul_lt_mono_pos_r with (p := N); [exact HNpos |]. lia. }
  assert (H53 : 2 ^ 53 = 2 ^ (j + 1) * P)
    by (unfold P; rewrite <- Z.pow_add_r by lia; f_equal; lia).
  assert (Hone : 2 ^ E = P * 2 ^ (E - 52 + j))
    by (unfold P; rewrite <- Z.pow_add_r by lia; f_equal; lia).
  assert (Hpe : 0 < 2 ^ (E - 52 + j)) by (apply Z.pow_pos_nonneg; lia).
  assert (HNP53 : N * P < 2 ^ 53) by (rewrite H53; apply Z.mul_lt_mono_pos_r; lia).
  assert (Hj1 : 1 < 2 ^ (j + 1)) by (apply Z.pow_gt_1; lia).
  assert (HP53 : P < 2 ^ 53).
  { rewrite H53. rewrite <- (Z.mul_1_l P) at 1. apply Z.mul_lt_mono_pos_r; lia. }
  split; [| split].
  - unfold r. split; [apply Z.mul_nonneg_nonneg; lia |].
    rewrite Hone. apply Z.mul_lt_mono_pos_r; lia.
  - unfold r. apply round_double_exact; lia.
  - unfold r.
    replace (c * 2 ^ (E - 52 + j) * N) with (c * N * 2 ^ (E - 52 + j)) by ring.
    rewrite round_double_exact by lia.
    rewrite Hone, Z.div_mul_cancel_r by lia.
    symmetry. apply Z.div_unique with (r := c * N - p * P); lia.
Qed.

Lemma unit_draw_below (r : Z) : unit_draw r -> 0 <= r <= 2 ^ 1074 - 2 ^ (1074 - 53).
Proof.
  intros [Hd Hlt]. unfold is_double in Hd. apply andb_true_iff in Hd as [H0 Hr].
  apply Z.leb_le in H0. apply Z.eqb_eq in Hr. split; [exact H0 |].
  now apply double_below_pow2.
Qed.

Lemma scaled_floor_range (N j r : Z) :
  0 <= j <= 52 -> 2 ^ j < N < 2 ^ (j + 1) -> unit_draw r ->
  0 <= Math_floor (times r N) <= N - 1.
Proof.
  intros Hj HN Hr. unfold Math_floor, times, one.
  destruct (scaled_range 1074 N j r ltac:(lia) Hj HN (unit_draw_below r Hr))
    as [Hlo Hhi].
  assert (H1 : 0 < 2 ^ 1074) by (apply Z.pow_pos_nonneg; lia).
  split; [apply Z.div_pos; assumption |].
  apply Z.lt_le_pred. apply Z.div_lt_upper_bound; [exact H1 |].
  rewrite (Z.mul_comm (2 ^ 1074) N). exact Hhi.
Qed.

Lemma scaled_floor_onto (N j p : Z) :
  0 <= j <= 52 -> 2 ^ j < N < 2 ^ (j + 1) -> N <= 2 ^ (52 - j) -> 0 <= p < N ->
  exists r, unit_draw r /\ Math_floor (times r N) = p.
Proof.
  intros Hj HN Hsmall Hp.
  destruct (scaled_onto 1074 N j p ltac:(lia) Hj HN Hsmall Hp)
    as ([H0 Hlt] & Hd & Hf).
  eexists. split; [split |].
  - unfold is_double. rewrite Hd, Z.eqb_refl.
    apply andb_true_iff. split; [now apply Z.leb_le | reflexivity].
  - exact Hlt.
  - exact Hf.
Qed.

Lemma getPrice_range (r : Z) : unit_draw r -> 4000 <= getPrice r <= 8999.
Proof.
  intros Hr. unfold getPrice.
  pose proof (scaled_floor_range 5000 12 r ltac:(lia) ltac:(simpl; lia) Hr).
  lia.
Qed.

(** Every price of the range is the price of some draw. *)
Lemma getPrice_onto (p : Z) :
  4000 <= p <= 8999 -> exists r, unit_draw r /\ getPrice r = p.
Proof.
  intros Hp.
  destruct (scaled_floor_onto 5000 12 (p - 4000)
              ltac:(lia) ltac:(simpl; lia) ltac:(simpl; lia) ltac:(lia))
    as (r & Hu & Hf).
  exists r. split; [exact Hu |]. unfold getPrice. rewrite Hf. lia.
Qed.

Lemma flights_prices (d : draws) :
  List.map Offer.price (flights d) =
  [getPrice (draw1 d); getPrice (draw2 d); getPrice (draw3 d)].
Proof. reflexivity. Qed.

Lemma flights_price_range (d : draws) (f : Offer.t) :
  unit_draws d -> In f (flights d) -> 4000 <= Offer.price f <= 8999.
Proof.
  intros (H1 & H2 & H3) Hin. simpl in Hin.
  destruct Hin as [<- | [<- | [<- | []]]]; simpl; now apply getPrice_range.
Qed.

(** C3: each price of a search is an integer of 4000..8999, and the three
    prices of one search can be any three values of that range. *)
Theorem prices_in_range_and_independent :
  (forall d f, unit_draws d -> In f (flights d) -> 4000 <= Offer.price f <= 8999) /\
  (forall p1 p2 p3,
      4000 <= p1 <= 8999 -> 4000 <= p2 <= 8999 -> 4000 <= p3 <= 8999 ->
      exists d, unit_draws d /\ List.map Offer.price (flights d) = [p1; p2; p3]).
Proof.
  split.
  - intros d f. apply flights_price_range.
  - intros p1 p2 p3 H1 H2 H3.
    destruct (getPrice_onto p1 H1) as (r1 & U1 & E1).
    destruct (getPrice_onto p2 H2) as (r2 & U2 & E2).
    destruct (getPrice_onto p3 H3) as (r3 & U3 & E3).
    exists (mkDraws r1 r2 r3).
    split; [exact (conj U1 (conj U2 U3)) |].
    rewrite flights_prices. simpl. now rewrite E1, E2, E3.
Qed.

(** On a flight whose time reads as an hour of the day, the arrow
    function of the filter and the contract agree. *)
Lemma keep_satisfies (a ts : string) (m h : Z) (f : Offer.t) :
  parseInt (split_head ":" (Offer.time f)) = Num h ->
  departure_hour (Offer.time f) = Some h ->
  0 <= h < 24 ->
  keep a (Num m) ts f = satisfies a m ts f.
Proof.
  intros Hcode Hspec Hh. unfold keep, satisfies, in_time_slot.
  rewrite Hcode, Hspec. cbn [num_le num_lt num_ge].
  destruct (falsy a); cbn [orb];
    destruct (String.eqb (Offer.airline f) a); cbn [andb]; try reflexivity;
    destruct (Offer.price f <=? m); cbn [andb]; try reflexivity;
    destruct (falsy ts); cbn [orb]; try reflexivity.
  all: destruct (String.eqb ts "morning") eqn:E1;
    [ apply String.eqb_eq in E1; subst ts; cbn; lia | ].
  all: destruct (String.eqb ts "afternoon") eqn:E2;
    [ apply String.eqb_eq in E2; subst ts; cbn; lia | ].
  all: destruct (String.eqb ts "evening") eqn:E3; cbn; lia.
Qed.

Lemma catalog_hours (d : draws) (f : Offer.t) :
  In f (flights d) ->
  exists h, parseInt (split_head ":" (Offer.time f)) = Num h /\
            departure_hour (Offer.time f) = Some h /\ 0 <= h < 24.
Proof.
  intros [<- | [<- | [<- | []]]];
    [exists 10 | exists 14 | exists 19]; repeat split; reflexivity || lia.
Qed.

(** C1: with a max price that reads as the integer [m], the search
    returns the catalog flights, in catalog order, that satisfy the three
    conditions of the contract. *)
Theorem search_is_contract_subset (fm : form) (d : draws) (m : Z) :
  parseInt (price_value fm) = Num m ->
  search fm d =
  List.filter (satisfies (airline_value fm) m (time_value fm)) (flights d).
Proof.
  intros Hm. unfold search, filtered. rewrite Hm.
  apply filter_ext_in. intros f Hf.
  destruct (catalog_hours d f Hf) as (h & H1 & H2 & H3).
  now apply keep_satisfies with (h := h).
Qed.

Lemma prices_in_range_and_independent_witness :
  4000 <= 6500 <= 8999 /\
  exists d, unit_draws d /\ List.map Offer.price (flights d) = [4000; 6500; 8999].
Proof.
  split.
  - apply (proj1 prices_in_range_and_independent (mkDraws (2 ^ 1073) 0 (2 ^ 1072))
             (Offer.mk "Air India" "AI202" "10:00" 6500)).
    + repeat split; vm_compute; reflexivity.
    + left. reflexivity.
  - apply (proj2 prices_in_range_and_independent 4000 6500 8999); lia.
Defined.

Lemma search_is_contract_subset_witness :
  search (mkForm "DEL" "BOM" "SpiceJet" "8000" "evening") (mkDraws (2 ^ 1073) 0 (2 ^ 1072)) =
  [Offer.mk "SpiceJet" "SG101" "19:45" 5250].
Proof.
  rewrite (search_is_contract_subset _ _ 8000); reflexivity.
Defined.

(** A price above the max price, or a max price that is [NaN], fails
    the second conjunct of the filter. *)
Lemma keep_price_false (a ts : string) (maxPrice : number) (f : Offer.t) :
  num_le (Num (Offer.price f)) maxPrice = false -> keep a maxPrice ts f = false.
Proof.
  intros H. unfold keep. rewrite H.
  now rewrite andb_false_r.
Qed.

Lemma filter_none {A : Type} (p : A -> bool) (l : list A) :
  (forall x, In x l -> p x = false) -> List.filter p l = [].
Proof.
  induction l as [| x l IH]; intros H; [reflexivity |].
  simpl. rewrite (H x (or_introl eq_refl)). apply IH.
  intros y Hy. apply H. now right.
Qed.

(** C5: below 4000 no price passes, whatever the draws and the other two
    filters are. *)
Theorem search_below_min_price_empty (fm : form) (d : draws) (m : Z) :
  unit_draws d ->
  parseInt (price_value fm) = Num m ->
  m < 4000 ->
  search fm d = [].
Proof.
  intros Hd Hm Hlt. unfold search, filtered. rewrite Hm.
  apply filter_none. intros f Hf. apply keep_price_false.
  pose proof (flights_price_range d f Hd Hf) as Hp.
  cbn [num_le]. apply Z.leb_gt. lia.
Qed.

Lemma search_below_min_price_empty_witness :
  search (mkForm "DEL" "BOM" "" "3999" "") (mkDraws 0 0 0) = [].
Proof.
  apply (search_below_min_price_empty _ _ 3999).
  - repeat split; vm_compute; reflexivity.
  - reflexivity.
  - lia.
Defined.

(** C6: the scenario search returns the IndiGo flight alone, with the
    price of the second draw, whatever the three draws are. *)
Theorem indigo_afternoon_scenario (d : draws) :
  unit_draws d ->
  search (mkForm "DEL" "BOM" "IndiGo" "9000" "afternoon") d =
  [Offer.mk "IndiGo" "6E305" "14:30" (getPrice (draw2 d))] /\
  getPrice (draw2 d) <= 9000.
Proof.
  intros Hd.
  assert (Hp : 4000 <= getPrice (draw2 d) <= 8999)
    by (apply getPrice_range, Hd).
  split; [| lia].
  unfold search, filtered, flights. cbn [airline_value price_value time_value].
  change (parseInt "9000") with (Num 9000).
  cbn [List.filter].
  replace (keep "IndiGo" (Num 9000) "afternoon"
             (Offer.mk "Air India" "AI202" "10:00" (getPrice (draw1 d))))
    with false by (unfold keep; reflexivity).
  replace (keep "IndiGo" (Num 9000) "afternoon"
             (Offer.mk "SpiceJet" "SG101" "19:45" (getPrice (draw3 d))))
    with false by (unfold keep; reflexivity).
  replace (keep "IndiGo" (Num 9000) "afternoon"
             (Offer.mk "IndiGo" "6E305" "14:30" (getPrice (draw2 d))))
    with true; [reflexivity |].
  unfold keep. cbn [Offer.airline Offer.price Offer.time num_le].
  replace (getPrice (draw2 d) <=? 9000) with true by (symmetry; apply Z.leb_le; lia).
  reflexivity.
Qed.

Lemma indigo_afternoon_scenario_witness :
  search (mkForm "DEL" "BOM" "IndiGo" "9000" "afternoon") (mkDraws (2 ^ 1073) (2 ^ 1072) 0) =
  [Offer.mk "IndiGo" "6E305" "14:30" (getPrice (2 ^ 1072))] /\
  getPrice (2 ^ 1072) <= 9000.
Proof.
  apply (indigo_afternoon_scenario (mkDraws (2 ^ 1073) (2 ^ 1072) 0)).
  repeat split; vm_compute; reflexivity.
Defined.

(** C9: a max-price field that [parseInt] reads as [NaN] makes the filter
    reject every flight; the callback throws nothing and shows an empty
    results list. *)
Theorem malformed_max_price_rejects_all (s : page) (fm : form) (d : draws) :
  parseInt (price_value fm) = NaN ->
  search fm d = [] /\
  snd (step s (Timer fm d)) = None /\
  (timers s <> O -> results (fst (step s (Timer fm d))) = []).
Proof.
  intros Hnan.
  assert (Hs : search fm d = []).
  { unfold search, filtered. rewrite Hnan.
    apply filter_none. intros f _. now apply keep_price_false. }
  split; [exact Hs |]. split; [reflexivity |].
  intros Ht. cbn [step fst]. unfold searchCallback.
  destruct (timers s) as [| n]; [contradiction |].
  unfold hideLoader, displayResults. cbn [results]. now rewrite Hs.
Qed.

Lemma malformed_max_price_rejects_all_witness :
  search (mkForm "DEL" "BOM" "" "abc" "") (mkDraws 0 0 0) = [] /\
  snd (step (submit blank) (Timer (mkForm "DEL" "BOM" "" "abc" "") (mkDraws 0 0 0))) = None /\
  (timers (submit blank) <> O ->
   results (fst (step (submit blank)
                   (Timer (mkForm "DEL" "BOM" "" "abc" "") (mkDraws 0 0 0)))) = []).
Proof.
  apply (malformed_max_price_rejects_all (submit blank)
           (mkForm "DEL" "BOM" "" "abc" "") (mkDraws 0 0 0)).
  reflexivity.
Defined.

(** * Text of numbers *)

Lemma append_assoc (a b c : string) : (a +:+ b) +:+ c = a +:+ (b +:+ c).
Proof. induction a as [| x a IH]; simpl; [reflexivity | now rewrite IH]. Qed.

Lemma append_nil_r (a : string) : a +:+ EmptyString = a.
Proof. induction a as [| x a IH]; simpl; [reflexivity | now rewrite IH]. Qed.

Lemma length_append (a b : string) :
  String.length (a +:+ b) = (String.length a + String.length b)%nat.
Proof. induction a as [| x a IH]; simpl; [reflexivity | now rewrite IH]. Qed.

Lemma string_drop_append (a b : string) : string_drop (String.length a) (a +:+ b) = b.
Proof. induction a as [| x a IH]; simpl; [now destruct b | exact IH]. Qed.

Lemma digit_value_digit_char (d : Z) :
  0 <= d < 10 -> digit_value 10 (digit_char d) = Some d.
Proof. intros H. each_digit d H; reflexivity. Qed.

Lemma decimal_digits_acc (fuel : nat) (n : Z) (acc : string) :
  decimal_digits fuel n acc = decimal_digits fuel n EmptyString +:+ acc.
Proof.
  revert n acc. induction fuel as [| f IH]; intros n acc; [reflexivity |].
  cbn [decimal_digits]. destruct (n <? 10); [reflexivity |].
  rewrite IH. rewrite (IH _ (String _ EmptyString)).
  now rewrite append_assoc.
Qed.

(** Any fuel above the binary length of [n] gives the same digits. *)
Lemma decimal_digits_fuel (f1 : nat) :
  forall (f2 : nat) (n : Z) (acc : string),
    0 <= n -> n < 2 ^ Z.of_nat f1 -> n < 2 ^ Z.of_nat f2 ->
    (1 <= f1)%nat -> (1 <= f2)%nat ->
    decimal_digits f1 n acc = decimal_digits f2 n acc.
Proof.
  induction f1 as [| f1 IH]; intros f2 n acc Hn H1 H2 L1 L2; [lia |].
  destruct f2 as [| f2]; [lia |].
  cbn [decimal_digits]. destruct (n <? 10) eqn:E; [reflexivity |].
  apply Z.ltb_ge in E.
  rewrite Nat2Z.inj_succ, Z.pow_succ_r in H1, H2 by lia.
  assert (Hq : 0 <= n / 10) by (apply Z.div_pos; lia).
  assert (Hle : n / 10 <= n / 2) by (apply Z.div_le_compat_l; lia).
  assert (Q1 : n / 2 < 2 ^ Z.of_nat f1) by (apply Z.div_lt_upper_bound; lia).
  assert (Q2 : n / 2 < 2 ^ Z.of_nat f2) by (apply Z.div_lt_upper_bound; lia).
  assert (P1 : (1 <= f1)%nat).
  { destruct f1; [| lia]. change (2 ^ Z.of_nat 0) with 1 in Q1.
    assert (5 <= n / 2) by (apply Z.div_le_lower_bound; lia). lia. }
  assert (P2 : (1 <= f2)%nat).
  { destruct f2; [| lia]. change (2 ^ Z.of_nat 0) with 1 in Q2.
    assert (5 <= n / 2) by (apply Z.div_le_lower_bound; lia). lia. }
  apply IH; lia.
Qed.

Lemma decimal_small (n : Z) :
  0 <= n < 10 -> decimal n = String (digit_char n) EmptyString.
Proof.
  intros H. unfold decimal. cbn [decimal_digits].
  rewrite Z.mod_small by lia.
  destruct (n <? 10) eqn:E; [reflexivity | apply Z.ltb_ge in E; lia].
Qed.

Lemma decimal_step (n : Z) :
  10 <= n ->
  decimal n = decimal (n / 10) +:+ String (digit_char (n mod 10)) EmptyString.
Proof.
  intros H. unfold decimal at 1. cbn [decimal_digits].
  destruct (n <? 10) eqn:E; [apply Z.ltb_lt in E; lia | clear E].
  rewrite decimal_digits_acc. f_equal. unfold decimal.
  assert (Hq : 1 <= n / 10) by (apply Z.div_le_lower_bound; lia).
  assert (Hlog : 3 <= Z.log2 n) by (apply Z.log2_le_pow2; simpl; lia).
  pose proof (Z.log2_spec n ltac:(lia)) as [_ Hn].
  pose proof (Z.log2_spec (n / 10) ltac:(lia)) as [_ Hn'].
  pose proof (Z.log2_nonneg (n / 10)) as Hl'.
  apply decimal_digits_fuel; try lia.
  - rewrite Z2Nat.id by lia.
    rewrite Z.pow_succ_r in Hn by lia.
    assert (n / 10 <= n / 2) by (apply Z.div_le_compat_l; lia).
    assert (n / 2 < 2 ^ Z.log2 n) by (apply Z.div_lt_upper_bound; lia).
    lia.
  - rewrite Nat2Z.inj_succ, Z2Nat.id by lia. exact Hn'.
Qed.

(** Induction along the digits of a number. *)
Lemma decimal_ind (P : Z -> Prop) :
  (forall n, 0 <= n < 10 -> P n) ->
  (forall n, 10 <= n -> P (n / 10) -> P n) ->
  forall n, 0 <= n -> P n.
Proof.
  intros Hbase Hstep n Hn.
  apply (Z_lt_induction (fun n => 0 <= n -> P n)); [| exact Hn | exact Hn].
  clear n Hn. intros n IH Hn.
  destruct (Z_lt_le_dec n 10) as [Hs | Hb].
  - destruct (Z_lt_le_dec n 0) as [Hneg | Hpos].
    + lia.
    + apply Hbase. lia.
  - apply Hstep; [exact Hb |].
    assert (0 <= n / 10 < n) by (split; [apply Z.div_pos; lia | apply Z.div_lt; lia]).
    apply IH; lia.
Qed.

Lemma decimal_length_pos (n : Z) : 0 <= n -> (1 <= String.length (decimal n))%nat.
Proof.
  intros Hn. pattern n. apply decimal_ind; [| | exact Hn]; clear n Hn.
  - intros n H. now rewrite decimal_small.
  - intros n H IH. rewrite decimal_step, length_append by exact H. simpl. lia.
Qed.

(** Reading back the digits of [n] gives [n]. *)
Lemma read_digits_decimal (n : Z) :
  0 <= n ->
  forall (rest : string) (c : nat) (a : Z),
    read_digits 10 (decimal n +:+ rest) c a =
    read_digits 10 rest (c + String.length (decimal n))%nat
      (a * 10 ^ Z.of_nat (String.length (decimal n)) + n).
Proof.
  intros Hn. pattern n. apply decimal_ind; [| | exact Hn]; clear n Hn.
  - intros n H rest c a. rewrite decimal_small by exact H.
    cbn [String.append read_digits String.length].
    rewrite digit_value_digit_char by exact H.
    change (10 ^ Z.of_nat 1) with 10. f_equal; lia.
  - intros n H IH rest c a. rewrite decimal_step by exact H.
    rewrite append_assoc, IH. cbn [String.append read_digits].
    rewrite digit_value_digit_char by (apply Z.mod_pos_bound; lia).
    rewrite length_append. cbn [String.length].
    rewrite Nat2Z.inj_add, Z.pow_add_r by lia.
    change (10 ^ Z.of_nat 1) with 10.
    pose proof (Z.div_mod n 10 ltac:(lia)).
    f_equal; lia.
Qed.

(** The first digit of a positive number is not a zero. *)
Lemma decimal_head (n : Z) :
  0 <= n -> 0 < n ->
  exists d ds, 1 <= d < 10 /\ decimal n = String (digit_char d) ds.
Proof.
  intros Hn. pattern n. apply decimal_ind; [| | exact Hn]; clear n Hn.
  - intros n H Hpos. exists n, EmptyString. split; [lia | now apply decimal_small].
  - intros n H IH _.
    destruct IH as (d & ds & Hd & E); [apply Z.div_str_pos; lia |].
    exists d, (ds +:+ String (digit_char (n mod 10)) EmptyString).
    split; [exact Hd |]. rewrite decimal_step, E by exact H. reflexivity.
Qed.

Lemma all_digits_append (a b : string) :
  all_digits (a +:+ b) = all_digits a && all_digits b.
Proof.
  induction a as [| x a IH]; simpl; [reflexivity |].
  now rewrite IH, andb_assoc.
Qed.

Lemma digit_char_is_digit (d : Z) :
  0 <= d < 10 -> in_range 48 (code (digit_char d)) 57 = true.
Proof. intros H. each_digit d H; reflexivity. Qed.

Lemma decimal_all_digits (n : Z) : 0 <= n -> all_digits (decimal n) = true.
Proof.
  intros Hn. pattern n. apply decimal_ind; [| | exact Hn]; clear n Hn.
  - intros n H. rewrite decimal_small by exact H. simpl.
    now rewrite digit_char_is_digit.
  - intros n H IH. rewrite decimal_step, all_digits_append, IH by exact H.
    simpl. now rewrite digit_char_is_digit by (apply Z.mod_pos_bound; lia).
Qed.

(** A number below [10^k] has at most [k] digits. *)
Lemma decimal_length_le (n : Z) :
  0 <= n ->
  forall k : nat, (1 <= k)%nat -> n < 10 ^ Z.of_nat k ->
                  (String.length (decimal n) <= k)%nat.
Proof.
  intros Hn. pattern n. apply decimal_ind; [| | exact Hn]; clear n Hn.
  - intros n H k Hk _. now rewrite decimal_small.
  - intros n H IH k Hk Hlt. rewrite decimal_step, length_append by exact H.
    cbn [String.length].
    destruct k as [| k]; [lia |].
    rewrite Nat2Z.inj_succ, Z.pow_succ_r in Hlt by lia.
    assert (Hq : n / 10 < 10 ^ Z.of_nat k) by (apply Z.div_lt_upper_bound; lia).
    assert (Hk' : (1 <= k)%nat).
    { destruct k; [| lia]. change (10 ^ Z.of_nat 0) with 1 in Hq.
      assert (1 <= n / 10) by (apply Z.div_le_lower_bound; lia). lia. }
    specialize (IH k Hk' Hq). lia.
Qed.

Lemma read_digits_end (rest : string) (c : nat) (a : Z) :
  number_end rest = true -> read_digits 10 rest c a = (c, a).
Proof.
  destruct rest as [| x rest]; [reflexivity |].
  cbn [number_end read_digits]. now destruct (digit_value 10 x).
Qed.

Lemma number_end_no_fraction (rest : string) :
  number_end rest = true -> starts_with_any [46; 69; 101] rest = false.
Proof.
  destruct rest as [| x rest]; [reflexivity |].
  cbn [number_end]. destruct (digit_value 10 x); [discriminate |].
  now destruct (starts_with_any _ _).
Qed.

Lemma parse_number_decimal (n : Z) (rest : string) :
  0 <= n -> number_end rest = true ->
  read_digits 10 (decimal n +:+ rest) O 0 = (String.length (decimal n), n) /\
  (starts_with_any [48] (decimal n +:+ rest) &&
   negb (Nat.eqb (String.length (decimal n)) 1) = false).
Proof.
  intros Hn Hend. split.
  - rewrite read_digits_decimal, read_digits_end by assumption.
    f_equal; lia.
  - destruct (Z.eq_dec n 0) as [-> | Hnz]; [reflexivity |].
    destruct (decimal_head n Hn ltac:(lia)) as (d & ds & Hd & E).
    rewrite E. cbn [String.append starts_with_any].
    replace (existsb _ _) with false; [reflexivity |].
    assert (Hd' : 0 <= d < 10) by lia. clear E.
    each_digit d Hd'; try reflexivity. lia.
Qed.

Lemma decimal_cons (n : Z) :
  0 <= n -> exists d ds, 0 <= d < 10 /\ decimal n = String (digit_char d) ds.
Proof.
  intros Hn. destruct (Z.eq_dec n 0) as [-> | Hnz].
  - exists 0, EmptyString. split; [lia | reflexivity].
  - destruct (decimal_head n Hn ltac:(lia)) as (d & ds & Hd & E).
    exists d, ds. split; [lia | exact E].
Qed.

Lemma code_digit_char (d : Z) : 0 <= d < 10 -> code (digit_char d) = 48 + d.
Proof. intros H. each_digit d H; reflexivity. Qed.

Lemma number_to_string_head (n : Z) :
  exists c tl, number_to_string n = String c tl /\ (code c = 45 \/ 48 <= code c <= 57).
Proof.
  unfold number_to_string. destruct (n <? 0) eqn:E.
  - exists "-"%char, (decimal (- n)). split; [reflexivity | now left].
  - apply Z.ltb_ge in E. destruct (decimal_cons n E) as (d & ds & Hd & Hs).
    exists (digit_char d), ds. split; [exact Hs |]. right.
    rewrite code_digit_char by exact Hd. lia.
Qed.

(** A printed integer reads back as itself. *)
Lemma parse_number_to_string (n : Z) (rest : string) :
  number_end rest = true ->
  parse_number (number_to_string n +:+ rest) = Some (n, rest).
Proof.
  intros Hend. unfold number_to_string. destruct (n <? 0) eqn:E.
  - apply Z.ltb_lt in E.
    destruct (parse_number_decimal (- n) rest ltac:(lia) Hend) as [Hr Hz].
    pose proof (decimal_length_pos (- n) ltac:(lia)) as Hlen.
    unfold parse_number. cbn [String.append].
    change (code "-" =? 45) with true. cbv iota beta.
    rewrite Hr. destruct (String.length (decimal (- n))) as [| k] eqn:Ek; [lia |].
    rewrite Hz, <- Ek, string_drop_append, number_end_no_fraction by exact Hend.
    f_equal. f_equal. lia.
  - apply Z.ltb_ge in E.
    destruct (parse_number_decimal n rest E Hend) as [Hr Hz].
    pose proof (decimal_length_pos n E) as Hlen.
    destruct (decimal_cons n E) as (d & ds & Hd & Hs).
    unfold parse_number.
    assert (Hsign :
      match decimal n +:+ rest with
      | String c s' => if code c =? 45 then (-1, s') else (1, decimal n +:+ rest)
      | EmptyString => (1, decimal n +:+ rest)
      end = (1, decimal n +:+ rest)).
    { rewrite Hs. cbn [String.append]. rewrite code_digit_char by exact Hd.
      destruct (48 + d =? 45) eqn:E45; [apply Z.eqb_eq in E45; lia | reflexivity]. }
    rewrite Hsign. rewrite Hr.
    destruct (String.length (decimal n)) as [| k] eqn:Ek; [lia |].
    rewrite Hz, <- Ek, string_drop_append, number_end_no_fraction by exact Hend.
    f_equal. f_equal. lia.
Qed.

(** * Text of strings *)

Lemma parse_chars_escape_char (c : ascii) (tail : string) :
  parse_chars (escape_char c +:+ tail) = push c (parse_chars tail).
Proof.
  destruct c as [[] [] [] [] [] [] [] []]; reflexivity.
Qed.

Lemma parse_chars_escape (s rest : string) :
  parse_chars (escape s +:+ String DQUOTE rest) = Some (s, rest).
Proof.
  induction s as [| c s IH]; [reflexivity |].
  cbn [escape]. rewrite append_assoc, parse_chars_escape_char, IH. reflexivity.
Qed.

(** A quoted string reads back as the string. *)
Lemma parse_chars_quote (s rest : string) :
  exists tl, quote s +:+ rest = String DQUOTE tl /\ parse_chars tl = Some (s, rest).
Proof.
  exists (escape s +:+ String DQUOTE rest). split.
  - unfold quote. cbn [String.append]. now rewrite append_assoc.
  - apply parse_chars_escape.
Qed.

(** * Text of objects *)

Lemma skip_ws_spaces (w x : string) :
  only_spaces w = true -> skip_ws (w +:+ x) = skip_ws x.
Proof.
  induction w as [| c w IH]; [reflexivity |].
  cbn [only_spaces String.append skip_ws]. intros H.
  apply andb_true_iff in H as [Hc Hw]. rewrite Hc. now apply IH.
Qed.

Lemma only_spaces_append (a b : string) :
  only_spaces (a +:+ b) = only_spaces a && only_spaces b.
Proof.
  induction a as [| c a IH]; [reflexivity |].
  cbn [String.append only_spaces]. now rewrite IH, andb_assoc.
Qed.

Lemma only_spaces_spaces (n : nat) : only_spaces (spaces n) = true.
Proof. induction n as [| n IH]; [reflexivity | exact IH]. Qed.

Lemma parse_value_spaces (fuel : nat) (w x : string) :
  only_spaces w = true -> parse_value fuel (w +:+ x) = parse_value fuel x.
Proof.
  intros H. destruct fuel as [| f]; [reflexivity |].
  cbn [parse_value]. now rewrite skip_ws_spaces.
Qed.

Lemma parse_members_spaces (fuel : nat) (w x : string) :
  only_spaces w = true -> parse_members fuel (w +:+ x) = parse_members fuel x.
Proof.
  intros H. destruct fuel as [| f]; [reflexivity |].
  cbn [parse_members]. now rewrite skip_ws_spaces.
Qed.

Lemma number_end_spaces_brace (w rest : string) :
  only_spaces w = true -> number_end (w +:+ String "}" rest) = true.
Proof.
  destruct w as [| c w]; [reflexivity |].
  cbn [only_spaces String.append]. intros H.
  apply andb_true_iff in H as [Hc _].
  destruct c as [[] [] [] [] [] [] [] []]; try discriminate Hc; reflexivity.
Qed.

Lemma reads_back_null : reads_back JNull.
Proof.
  intros gap indent rest fuel _ _ _ Hf. destruct fuel as [| f]; [simpl in Hf; lia |].
  reflexivity.
Qed.

Lemma reads_back_string (s : string) : reads_back (JStr s).
Proof.
  intros gap indent rest fuel _ _ _ Hf. destruct fuel as [| f]; [simpl in Hf; lia |].
  cbn [serialize]. destruct (parse_chars_quote s rest) as (tl & -> & Htl).
  cbn [parse_value skip_ws]. change (is_json_space DQUOTE) with false.
  change (code DQUOTE =? 110) with false. change (code DQUOTE =? 34) with true.
  cbv iota. now rewrite Htl.
Qed.

Lemma reads_back_number (n : Z) : reads_back (JNum n).
Proof.
  intros gap indent rest fuel _ _ Hend Hf. destruct fuel as [| f]; [simpl in Hf; lia |].
  cbn [serialize].
  pose proof (parse_number_to_string n rest Hend) as Hp.
  destruct (number_to_string_head n) as (c & tl & E & Hc).
  rewrite E in *. cbn [String.append] in *. cbn [parse_value skip_ws].
  assert (Hs : is_json_space c = false).
  { unfold is_json_space. destruct Hc as [-> | Hc]; [reflexivity |].
    repeat (apply orb_false_iff; split); apply Z.eqb_neq; lia. }
  rewrite Hs.
  assert (H110 : (code c =? 110) = false) by (apply Z.eqb_neq; lia).
  assert (H34 : (code c =? 34) = false) by (apply Z.eqb_neq; lia).
  assert (H123 : (code c =? 123) = false) by (apply Z.eqb_neq; lia).
  rewrite H110, H34, H123. now rewrite Hp.
Qed.

Lemma members_size_cons (kv : string * json) (ms : list (string * json)) :
  members_size (kv :: ms) = S (json_size (snd kv) + members_size ms).
Proof. reflexivity. Qed.

Lemma json_size_object (ms : list (string * json)) :
  json_size (JObj ms) = S (members_size ms).
Proof. reflexivity. Qed.

Lemma member_text_cons (gap indent : string) (kv : string * json) (tail : string) :
  exists tl,
    member_text gap indent kv +:+ tail = String DQUOTE tl /\
    parse_chars tl =
    Some (fst kv, String ":" ((if falsy gap then "" else " ")
                              +:+ serialize gap indent (snd kv) +:+ tail)).
Proof.
  unfold member_text.
  destruct (parse_chars_quote (fst kv)
              (String ":" ((if falsy gap then "" else " ")
                           +:+ serialize gap indent (snd kv) +:+ tail)))
    as (tl & E & Htl).
  exists tl. split; [| exact Htl]. rewrite <- E.
  rewrite !append_assoc. reflexivity.
Qed.

Lemma only_spaces_gap_sep (gap : string) :
  only_spaces (if falsy gap then "" else " ") = true.
Proof. now destruct (falsy gap). Qed.

Lemma parse_members_text (gap indent sepw closew : string) :
  only_spaces gap = true -> only_spaces indent = true ->
  only_spaces sepw = true -> only_spaces closew = true ->
  forall ms : list (string * json),
    Forall (fun kv => reads_back (snd kv)) ms -> ms <> [] ->
    forall (fuel : nat) (rest : string),
      (members_size ms <= fuel)%nat ->
      parse_members fuel
        (join (String "," sepw) (List.map (member_text gap indent) ms)
         +:+ closew +:+ String "}" rest) = Some (ms, rest).
Proof.
  intros Hgap Hind Hsep Hclose ms.
  induction ms as [| kv ms IH]; intros Hall Hne fuel rest Hfuel; [contradiction |].
  apply Forall_cons_iff in Hall as [Hkv Hall].
  rewrite members_size_cons in Hfuel.
  destruct kv as [k v]. cbn [fst snd] in Hkv, Hfuel.
  destruct fuel as [| f]; [lia |].
  destruct ms as [| kv' ms'].
  - (* the last member *)
    cbn [List.map join].
    destruct (member_text_cons gap indent (k, v) (closew +:+ String "}" rest))
      as (tl & -> & Htl).
    cbn [parse_members skip_ws]. change (is_json_space DQUOTE) with false.
    change (code DQUOTE =? 34) with true. cbv iota. rewrite Htl.
    cbn [skip_ws]. change (is_json_space ":") with false.
    change (code ":" =? 58) with true. cbv iota.
    rewrite parse_value_spaces by apply only_spaces_gap_sep.
    rewrite (Hkv gap indent _ f Hgap Hind (number_end_spaces_brace _ _ Hclose)) by lia.
    rewrite skip_ws_spaces by exact Hclose.
    reflexivity.
  - (* a member followed by a comma *)
    set (more := kv' :: ms') in *.
    assert (Hjoin : forall x, join (String "," sepw) (x :: List.map (member_text gap indent) more)
                    = x +:+ String "," sepw +:+ join (String "," sepw) (List.map (member_text gap indent) more)).
    { intros x. reflexivity. }
    cbn [List.map]. rewrite Hjoin, !append_assoc.
    destruct (member_text_cons gap indent (k, v)
                (String "," sepw +:+ join (String "," sepw) (List.map (member_text gap indent) more)
                   +:+ closew +:+ String "}" rest))
      as (tl & -> & Htl).
    cbn [parse_members skip_ws]. change (is_json_space DQUOTE) with false.
    change (code DQUOTE =? 34) with true. cbv iota. rewrite Htl.
    cbn [skip_ws]. change (is_json_space ":") with false.
    change (code ":" =? 58) with true. cbv iota.
    rewrite parse_value_spaces by apply only_spaces_gap_sep.
    rewrite (Hkv gap indent _ f Hgap Hind) by (reflexivity || lia).
    cbn [String.append skip_ws]. change (is_json_space ",") with false.
    change (code "," =? 44) with true. cbv iota.
    rewrite parse_members_spaces by exact Hsep.
    rewrite IH; [reflexivity | exact Hall | discriminate | lia].
Qed.

Lemma serialize_object (gap indent : string) (ms : list (string * json)) :
  serialize gap indent (JObj ms) =
  match ms with
  | [] => "{}"
  | _ =>
      if falsy gap then
        "{" +:+ join "," (List.map (member_text gap (indent +:+ gap)) ms) +:+ "}"
      else
        "{" +:+ String LF (indent +:+ gap)
        +:+ join (String "," (String LF (indent +:+ gap)))
              (List.map (member_text gap (indent +:+ gap)) ms)
        +:+ String LF indent +:+ "}"
  end.
Proof. destruct ms; reflexivity. Qed.

Lemma join_members_head (sep gap indent : string) (kv : string * json)
    (ms : list (string * json)) (tail : string) :
  exists tl,
    join sep (List.map (member_text gap indent) (kv :: ms)) +:+ tail = String DQUOTE tl.
Proof.
  destruct ms as [| kv' ms]; cbn [List.map join].
  - destruct (member_text_cons gap indent kv tail) as (tl & E & _). now exists tl.
  - rewrite append_assoc.
    destruct (member_text_cons gap indent kv
                ((sep +:+ join sep (member_text gap indent kv'
                                      :: List.map (member_text gap indent) ms)) +:+ tail))
      as (tl & E & _).
    now exists tl.
Qed.

Lemma parse_value_object (f : nat) (body tl : string) :
  skip_ws body = String DQUOTE tl ->
  parse_value (S f) (String "{" body) =
  match parse_members f (String DQUOTE tl) with
  | Some (ms, rest') => Some (JObj ms, rest')
  | None => None
  end.
Proof.
  intros H. cbn [parse_value skip_ws]. change (is_json_space "{") with false.
  cbv iota. change (code "{" =? 110) with false. change (code "{" =? 34) with false.
  change (code "{" =? 123) with true. cbv iota. rewrite H. reflexivity.
Qed.

Lemma skip_ws_dquote (tl : string) : skip_ws (String DQUOTE tl) = String DQUOTE tl.
Proof. reflexivity. Qed.

Lemma reads_back_object (ms : list (string * json)) :
  Forall (fun kv => reads_back (snd kv)) ms -> reads_back (JObj ms).
Proof.
  intros Hall gap indent rest fuel Hgap Hind Hend Hf.
  rewrite json_size_object in Hf. destruct fuel as [| f]; [lia |].
  rewrite serialize_object. destruct ms as [| kv ms]; [reflexivity |].
  set (all := kv :: ms) in *.
  assert (Hind' : only_spaces (indent +:+ gap) = true)
    by (rewrite only_spaces_append, Hind, Hgap; reflexivity).
  destruct (falsy gap) eqn:Efalsy.
  - cbn [String.append]. rewrite append_assoc.
    destruct (join_members_head "," gap (indent +:+ gap) kv ms ("}" +:+ rest))
      as (tl & E).
    fold all in E.
    rewrite (parse_value_object f _ tl) by (rewrite E; apply skip_ws_dquote).
    assert (Hm : parse_members f (String DQUOTE tl) = Some (all, rest)).
    { rewrite <- E.
      apply (parse_members_text gap (indent +:+ gap) "" "" Hgap Hind' eq_refl eq_refl
               all Hall ltac:(discriminate) f rest ltac:(lia)). }
    now rewrite Hm.
  - remember (join (String "," (String LF (indent +:+ gap)))
                (List.map (member_text gap (indent +:+ gap)) all)) as J eqn:EJ.
    assert (Eshape :
      ("{" +:+ String LF (indent +:+ gap) +:+ J +:+ String LF indent +:+ "}") +:+ rest =
      String "{" (String LF (indent +:+ gap) +:+ (J +:+ (String LF indent +:+ String "}" rest)))).
    { repeat (progress (cbn [String.append]; rewrite ?append_assoc)). reflexivity. }
    rewrite Eshape. clear Eshape. subst J.
    destruct (join_members_head (String "," (String LF (indent +:+ gap))) gap
                (indent +:+ gap) kv ms (String LF indent +:+ String "}" rest))
      as (tl & E).
    fold all in E.
    assert (Hsep : only_spaces (String LF (indent +:+ gap)) = true) by exact Hind'.
    assert (Hclose : only_spaces (String LF indent) = true) by exact Hind.
    rewrite (parse_value_object f _ tl)
      by (rewrite skip_ws_spaces by exact Hsep; rewrite E; apply skip_ws_dquote).
    assert (Hm : parse_members f (String DQUOTE tl) = Some (all, rest)).
    { rewrite <- E.
      apply (parse_members_text gap (indent +:+ gap) _ _ Hgap Hind' Hsep Hclose
               all Hall ltac:(discriminate) f rest ltac:(lia)). }
    now rewrite Hm.
Qed.

(** Every value of the fragment reads back from its text, compact or
    indented. *)
Lemma serialize_reads_back (v : json) : reads_back v.
Proof.
  induction v using json_induction.
  - apply reads_back_null.
  - apply reads_back_number.
  - apply reads_back_string.
  - now apply reads_back_object.
Qed.

(** The fuel [JSON_parse] starts with is enough: a text is at least as
    long as the size of its value. *)
Lemma number_to_string_length (n : Z) : (1 <= String.length (number_to_string n))%nat.
Proof.
  destruct (number_to_string_head n) as (c & tl & -> & _). simpl. lia.
Qed.

Lemma member_text_length (gap indent : string) (kv : string * json) :
  (String.length (serialize gap indent (snd kv)) <
   String.length (member_text gap indent kv))%nat.
Proof.
  unfold member_text. rewrite !length_append. cbn [String.length]. lia.
Qed.

Lemma join_members_length (sep gap indent : string) (ms : list (string * json)) :
  Forall (fun kv => forall g i, (json_size (snd kv) <= String.length (serialize g i (snd kv)))%nat) ms ->
  (members_size ms <= String.length (join sep (List.map (member_text gap indent) ms)))%nat.
Proof.
  induction ms as [| kv ms IH]; intros Hall;
    [change (members_size []) with O; lia |].
  apply Forall_cons_iff in Hall as [Hkv Hall].
  rewrite members_size_cons.
  pose proof (member_text_length gap indent kv) as Hm.
  specialize (Hkv gap indent). specialize (IH Hall).
  destruct ms as [| kv' ms'].
  - cbn [List.map join]. change (members_size []) with O. lia.
  - change (join sep (List.map (member_text gap indent) (kv :: kv' :: ms')))
      with (member_text gap indent kv +:+ sep
            +:+ join sep (List.map (member_text gap indent) (kv' :: ms'))).
    rewrite !length_append. lia.
Qed.

Lemma json_size_le_length (v : json) :
  forall gap indent, (json_size v <= String.length (serialize gap indent v))%nat.
Proof.
  induction v as [| n | s | ms Hall] using json_induction; intros gap indent.
  - simpl. lia.
  - cbn [serialize json_size]. apply number_to_string_length.
  - cbn [serialize json_size]. unfold quote. simpl. lia.
  - rewrite json_size_object, serialize_object.
    destruct ms as [| kv ms]; [change (members_size []) with O; simpl; lia |].
    pose proof (join_members_length "," gap (indent +:+ gap) (kv :: ms) Hall) as H1.
    pose proof (join_members_length (String "," (String LF (indent +:+ gap))) gap
                  (indent +:+ gap) (kv :: ms) Hall) as H2.
    destruct (falsy gap); cbn [String.append String.length];
      rewrite ?length_append; cbn [String.length]; rewrite ?length_append; lia.
Qed.

(** [JSON.parse(JSON.stringify(v))] and [JSON.parse(JSON.stringify(v,
    null, space))] are deep-equal to [v]. *)
Lemma parse_serialize (gap : string) (v : json) :
  only_spaces gap = true -> JSON_parse (serialize gap "" v) = Some v.
Proof.
  intros Hgap. unfold JSON_parse.
  pose proof (serialize_reads_back v gap "" "" (S (String.length (serialize gap "" v)))
                Hgap eq_refl eq_refl) as H.
  rewrite append_nil_r in H. rewrite H; [reflexivity |].
  pose proof (json_size_le_length v gap ""). lia.
Qed.

Lemma JSON_parse_stringify (v : json) : JSON_parse (JSON_stringify v) = Some v.
Proof. now apply parse_serialize. Qed.

Lemma JSON_parse_stringify_space (v : json) (space : nat) :
  JSON_parse (JSON_stringify_space v space) = Some v.
Proof. apply parse_serialize, only_spaces_spaces. Qed.

(** * The booking workflow *)

(** A confirmation code is [PNR] and the digits of an integer of
    0..999999. *)
Lemma makePnr_spec (r : Z) :
  unit_draw r ->
  exists n, 0 <= n <= 999999 /\ makePnr r = "PNR" +:+ number_to_string n /\
            matches_PNR (makePnr r) = true.
Proof.
  intros Hr. exists (Math_floor (times r 1000000)).
  pose proof (scaled_floor_range 1000000 19 r ltac:(lia) ltac:(simpl; lia) Hr) as Hn.
  split; [lia |]. split; [reflexivity |].
  unfold makePnr, number_to_string.
  destruct (Math_floor (times r 1000000) <? 0) eqn:E; [apply Z.ltb_lt in E; lia | clear E].
  cbn [String.append matches_PNR].
  rewrite decimal_all_digits by lia.
  pose proof (decimal_length_pos (Math_floor (times r 1000000)) ltac:(lia)) as H1.
  pose proof (decimal_length_le (Math_floor (times r 1000000)) ltac:(lia) 6%nat ltac:(lia)) as H6.
  change (10 ^ Z.of_nat 6) with 1000000 in H6. specialize (H6 ltac:(lia)).
  cbn [andb]. apply andb_true_iff. split; apply Nat.leb_le; assumption.
Qed.

(** C4: selecting [X] and confirming at once as Alice gives a record
    whose flight is [X] and whose code is [PNR] followed by an integer of
    0..999999, which matches the pattern of [PNR] and one to six digits. *)
Theorem select_then_confirm (s : page) (X : Offer.t) (r : Z) (now : Z) :
  unit_draw r ->
  exists b n,
    bookingDetails (run s [OpenBooking X; ConfirmBooking "Alice" "a@x.com" r now]) = Some b /\
    Booking.flight b = Some X /\
    flight_json (Booking.flight b) = offer_json X /\
    Booking.passenger b = "Alice" /\ Booking.email b = "a@x.com" /\
    0 <= n <= 999999 /\
    Booking.pnr b = "PNR" +:+ number_to_string n /\
    matches_PNR (Booking.pnr b) = true.
Proof.
  intros Hr. destruct (makePnr_spec r Hr) as (n & Hn & Hpnr & Hmatch).
  eexists. exists n. split; [reflexivity |].
  cbn [Booking.flight Booking.passenger Booking.email Booking.pnr
       openBooking selectedFlight].
  repeat split; try assumption; lia.
Qed.

Lemma select_then_confirm_witness :
  exists b n,
    bookingDetails
      (run blank [OpenBooking (Offer.mk "IndiGo" "6E305" "14:30" 5666);
                  ConfirmBooking "Alice" "a@x.com" (2 ^ 1072) 0]) = Some b /\
    Booking.flight b = Some (Offer.mk "IndiGo" "6E305" "14:30" 5666) /\
    flight_json (Booking.flight b) = offer_json (Offer.mk "IndiGo" "6E305" "14:30" 5666) /\
    Booking.passenger b = "Alice" /\ Booking.email b = "a@x.com" /\
    0 <= n <= 999999 /\
    Booking.pnr b = "PNR" +:+ number_to_string n /\
    matches_PNR (Booking.pnr b) = true.
Proof.
  apply (select_then_confirm blank (Offer.mk "IndiGo" "6E305" "14:30" 5666) (2 ^ 1072) 0).
  split; vm_compute; reflexivity.
Defined.

Lemma run_app (s : page) (es1 es2 : list event) :
  run s (es1 ++ es2) = run (run s es1) es2.
Proof. unfold run. apply fold_left_app. Qed.

Lemma selectedFlight_step (s : page) (e : event) :
  selectedFlight (fst (step s e)) =
  match e with OpenBooking f => Some f | _ => selectedFlight s end.
Proof.
  destruct e; try reflexivity.
  - cbn [step fst]. unfold searchCallback. now destruct (timers s).
  - cbn [step]. unfold downloadReceipt. now destruct (bookingDetails s).
Qed.

(** Only [openBooking] writes [selectedFlight]. *)
Lemma selectedFlight_run (es : list event) :
  forall s, selectedFlight (run s es) = last_selected (selectedFlight s) es.
Proof.
  induction es as [| e es IH]; intros s; [reflexivity |].
  change (run s (e :: es)) with (run (fst (step s e)) es).
  rewrite IH, selectedFlight_step. reflexivity.
Qed.

Lemma last_selected_some (es : list event) :
  forall init,
    last_selected init es <> None <-> (init <> None \/ exists f, In (OpenBooking f) es).
Proof.
  induction es as [| e es IH]; intros init.
  - cbn. split; [now left | intros [H | [f []]]; exact H].
  - change (last_selected init (e :: es))
      with (last_selected (match e with OpenBooking f => Some f | _ => init end) es).
    rewrite IH. split.
    + intros [H | [f Hf]].
      * destruct e; try (now left). right. eexists. left. reflexivity.
      * right. exists f. now right.
    + intros [H | [f [Hf | Hf]]].
      * destruct e; now left.
      * subst e. now left.
      * right. now exists f.
Qed.

(** C2, as the code has it: [confirmBooking] has no guard.  A session of
    a fresh page that ends in a confirmation always creates a booking
    record and persists it: the page holds the record, the storage holds
    its text under ["booking"] and that text reads back as the record.
    The flight of the record is the offer selected last, and it is [null]
    exactly when the session selected none. *)
Theorem confirm_records_last_selection
    (s : page) (es : list event) (name email : string) (r now : Z) :
  fresh s ->
  exists b,
    bookingDetails (run s (es ++ [ConfirmBooking name email r now])) = Some b /\
    Booking.flight b = last_selected None es /\
    (Booking.flight b <> None <-> exists f, In (OpenBooking f) es) /\
    localStorage (run s (es ++ [ConfirmBooking name email r now])) !! "booking" =
      Some (JSON_stringify (booking_json b)) /\
    stored_booking (run s (es ++ [ConfirmBooking name email r now])) =
      Some (booking_json b).
Proof.
  intros [Hsel _]. rewrite run_app.
  eexists. split; [reflexivity |].
  cbn [Booking.flight]. rewrite selectedFlight_run, Hsel.
  split; [reflexivity |].
  split.
  { rewrite last_selected_some.
    split; [intros [H | H]; [congruence | exact H] | now right]. }
  assert (Hst : localStorage
                  (run (run s es) [ConfirmBooking name email r now]) !! "booking" =
                Some (JSON_stringify
                        (booking_json
                           (Booking.mk name email
                              (last_selected None es) (makePnr r) (toISOString now))))).
  { cbn [run fold_left step fst confirmBooking localStorage].
    rewrite selectedFlight_run, Hsel. apply lookup_insert_eq. }
  split; [exact Hst |].
  unfold stored_booking. rewrite Hst. apply JSON_parse_stringify.
Qed.

Lemma confirm_records_last_selection_witness :
  exists b,
    bookingDetails
      (run blank ([OpenBooking (Offer.mk "IndiGo" "6E305" "14:30" 5666)]
                  ++ [ConfirmBooking "Alice" "a@x.com" 0 0])) = Some b /\
    Booking.flight b =
      last_selected None [OpenBooking (Offer.mk "IndiGo" "6E305" "14:30" 5666)] /\
    (Booking.flight b <> None <->
     exists f, In (OpenBooking f) [OpenBooking (Offer.mk "IndiGo" "6E305" "14:30" 5666)]) /\
    localStorage
      (run blank ([OpenBooking (Offer.mk "IndiGo" "6E305" "14:30" 5666)]
                  ++ [ConfirmBooking "Alice" "a@x.com" 0 0])) !! "booking" =
      Some (JSON_stringify (booking_json b)) /\
    stored_booking
      (run blank ([OpenBooking (Offer.mk "IndiGo" "6E305" "14:30" 5666)]
                  ++ [ConfirmBooking "Alice" "a@x.com" 0 0])) =
      Some (booking_json b).
Proof.
  apply (confirm_records_last_selection blank
           [OpenBooking (Offer.mk "IndiGo" "6E305" "14:30" 5666)] "Alice" "a@x.com" 0 0).
  split; reflexivity.
Defined.

(** C2, as the specification states it, fails: confirming on a fresh page
    with nothing selected creates a record, with a [null] flight. *)
Lemma booking_without_selection : ~ booking_requires_selection.
Proof.
  intros H.
  destruct (H [] "Alice" "a@x.com" 0 0) as [f []].
  discriminate.
Qed.

(** C7: after two confirmations in a row the storage holds the text of
    the second record under ["booking"], it reads back as the second
    record, and the storage is what the second call alone would have
    left. *)
Theorem second_confirm_overwrites
    (s : page) (name1 email1 : string) (r1 : Z) (now1 : Z)
    (name2 email2 : string) (r2 : Z) (now2 : Z) :
  let s2 := run s [ConfirmBooking name1 email1 r1 now1;
                   ConfirmBooking name2 email2 r2 now2] in
  let b2 := Booking.mk name2 email2 (selectedFlight s) (makePnr r2) (toISOString now2) in
  bookingDetails s2 = Some b2 /\
  localStorage s2 !! "booking" = Some (JSON_stringify (booking_json b2)) /\
  stored_booking s2 = Some (booking_json b2) /\
  localStorage s2 = localStorage (run s [ConfirmBooking name2 email2 r2 now2]).
Proof.
  cbn zeta. unfold stored_booking, run.
  cbn [fold_left step fst confirmBooking bookingDetails localStorage selectedFlight].
  split; [reflexivity |].
  split; [apply lookup_insert_eq |].
  split.
  - rewrite lookup_insert_eq. apply JSON_parse_stringify.
  - apply insert_insert_eq.
Qed.

Lemma stored_agrees_confirm (name email : string) (r now : Z) (s : page) :
  stored_agrees (confirmBooking name email r now s).
Proof.
  eexists. split; [reflexivity |].
  unfold stored_booking. cbn [confirmBooking localStorage].
  rewrite lookup_insert_eq. apply JSON_parse_stringify.
Qed.

Lemma downloadReceipt_keeps (s : page) :
  bookingDetails (fst (downloadReceipt s)) = bookingDetails s /\
  localStorage (fst (downloadReceipt s)) = localStorage s /\
  selectedFlight (fst (downloadReceipt s)) = selectedFlight s.
Proof.
  unfold downloadReceipt.
  destruct (bookingDetails s) eqn:E; cbn [fst bookingDetails localStorage selectedFlight];
    rewrite ?E; repeat split.
Qed.

Lemma stored_agrees_step (s : page) (e : event) :
  stored_agrees s -> stored_agrees (fst (step s e)).
Proof.
  intros (b & Hb & Hs). destruct e; cbn [step fst].
  - exists b. now split.
  - exists b. now split.
  - unfold searchCallback. destruct (timers s); exists b; now split.
  - exists b. now split.
  - apply stored_agrees_confirm.
  - destruct (downloadReceipt_keeps s) as (Eb & El & _).
    exists b. split; [now rewrite Eb |].
    unfold stored_booking in *. now rewrite El.
Qed.

(** C10: a confirmation leaves the record in memory and the stored text
    in agreement, and [downloadReceipt] changes neither of them, so the
    agreement stays; it stays under every other event too. *)
Theorem memory_and_storage_agree :
  (forall s name email r now, stored_agrees (confirmBooking name email r now s)) /\
  (forall s, bookingDetails (fst (downloadReceipt s)) = bookingDetails s /\
             localStorage (fst (downloadReceipt s)) = localStorage s) /\
  (forall s es, stored_agrees s -> stored_agrees (run s es)).
Proof.
  split; [intros; apply stored_agrees_confirm |].
  split; [intros s; destruct (downloadReceipt_keeps s) as (H1 & H2 & _); now split |].
  intros s es. revert s. induction es as [| e es IH]; intros s H; [exact H |].
  change (run s (e :: es)) with (run (fst (step s e)) es).
  apply IH. now apply stored_agrees_step.
Qed.

Lemma memory_and_storage_agree_witness :
  stored_agrees
    (run (confirmBooking "Alice" "a@x.com" 0 0 blank)
       [DownloadReceipt; OpenBooking (Offer.mk "IndiGo" "6E305" "14:30" 5666);
        DownloadReceipt]).
Proof.
  apply (proj2 (proj2 memory_and_storage_agree)).
  apply (proj1 memory_and_storage_agree).
Defined.

(** * The timestamp *)

(** The year of the era and the day of that year (from the 1st of
    March); the last day exists in leap years only. *)
Lemma year_of_era (doe : Z) :
  0 <= doe < 146097 ->
  let yoe := (doe - doe / 1460 + doe / 36524 - doe / 146096) / 365 in
  let doy := doe - (365 * yoe + yoe / 4 - yoe / 100) in
  0 <= yoe <= 399 /\ 0 <= doy <= 365 /\
  (doy = 365 -> (yoe + 1) mod 4 = 0 /\ ((yoe + 1) mod 100 <> 0 \/ (yoe + 1) mod 400 = 0)).
Proof.
  intros H yoe doy. subst doy yoe.
  Z.div_mod_to_equations. lia.
Qed.

(** The month (counted from March) and the day of a day of the year. *)
Lemma month_of_year (doy : Z) :
  0 <= doy <= 365 ->
  let mp := (5 * doy + 2) / 153 in
  let d := doy - (153 * mp + 2) / 5 + 1 in
  0 <= mp <= 11 /\ 1 <= d <= 31 /\
  (mp = 11 -> d <= 29 /\ (d = 29 -> doy = 365)) /\
  (mp = 1 \/ mp = 3 \/ mp = 6 \/ mp = 8 -> d <= 30).
Proof.
  intros H mp d. subst d mp.
  Z.div_mod_to_equations. lia.
Qed.

Lemma civil_of_doe_ok (doe y m d : Z) :
  0 <= doe < 146097 ->
  civil_of_doe doe = (y, m, d) ->
  0 <= y <= 400 /\ 1 <= m <= 12 /\ 1 <= d <= days_in_month y m.
Proof.
  intros Hdoe. unfold civil_of_doe.
  pose proof (year_of_era doe Hdoe) as Hy. cbv zeta in Hy.
  set (yoe := (doe - doe / 1460 + doe / 36524 - doe / 146096) / 365) in *.
  set (doy := doe - (365 * yoe + yoe / 4 - yoe / 100)) in *.
  destruct Hy as (Hyoe & Hdoy & Hleap).
  pose proof (month_of_year doy Hdoy) as Hm. cbv zeta in Hm.
  set (mp := (5 * doy + 2) / 153) in *.
  set (dd := doy - (153 * mp + 2) / 5 + 1) in *.
  destruct Hm as (Hmp & Hd & Hfeb & H30).
  clearbody dd mp doy yoe.
  intros [= <- <- <-].
  unfold days_in_month, is_leap.
  destruct (mp <? 10) eqn:E10; [apply Z.ltb_lt in E10 | apply Z.ltb_ge in E10].
  - replace (mp + 3 <=? 2) with false by (symmetry; apply Z.leb_gt; lia).
    replace (mp + 3 =? 2) with false by (symmetry; apply Z.eqb_neq; lia).
    destruct (mp + 3 =? 4) eqn:E4; destruct (mp + 3 =? 6) eqn:E6;
      destruct (mp + 3 =? 9) eqn:E9; destruct (mp + 3 =? 11) eqn:E11;
      cbn [orb]; rewrite ?Z.eqb_eq in *; lia.
  - replace (mp - 9 <=? 2) with true by (symmetry; apply Z.leb_le; lia).
    replace (mp - 9 =? 4) with false by (symmetry; apply Z.eqb_neq; lia).
    replace (mp - 9 =? 6) with false by (symmetry; apply Z.eqb_neq; lia).
    replace (mp - 9 =? 9) with false by (symmetry; apply Z.eqb_neq; lia).
    replace (mp - 9 =? 11) with false by (symmetry; apply Z.eqb_neq; lia).
    cbn [orb].
    destruct (mp - 9 =? 2) eqn:E2; [apply Z.eqb_eq in E2 | lia].
    assert (Emp : mp = 11) by lia. destruct (Hfeb Emp) as [H29 Hlast].
    destruct (Z.eq_dec dd 29) as [E29 | N29].
    + destruct (Hleap (Hlast E29)) as [L4 L100].
      rewrite L4. cbn [Z.eqb andb].
      destruct L100 as [L100 | L400].
      * replace ((yoe + 1) mod 100 =? 0) with false by (symmetry; apply Z.eqb_neq; lia).
        cbn [negb orb]. lia.
      * rewrite L400. rewrite orb_true_r. lia.
    + destruct (_ || _); lia.
Qed.

Lemma is_leap_era (y e : Z) : is_leap (y + e * 400) = is_leap y.
Proof.
  unfold is_leap.
  replace ((y + e * 400) mod 4) with (y mod 4)
    by (replace (y + e * 400) with (y + e * 100 * 4) by lia; now rewrite Z.mod_add).
  replace ((y + e * 400) mod 100) with (y mod 100)
    by (replace (y + e * 400) with (y + e * 4 * 100) by lia; now rewrite Z.mod_add).
  now rewrite Z.mod_add.
Qed.

Lemma civil_from_days_ok (day y m d : Z) :
  civil_from_days day = (y, m, d) ->
  1 <= m <= 12 /\ 1 <= d <= days_in_month y m /\
  (day + 719468) / 146097 * 400 <= y <= (day + 719468) / 146097 * 400 + 400.
Proof.
  unfold civil_from_days.
  pose proof (Z.mod_pos_bound (day + 719468) 146097 ltac:(lia)) as Hdoe.
  destruct (civil_of_doe ((day + 719468) mod 146097)) as [[y0 m0] d0] eqn:E.
  destruct (civil_of_doe_ok _ _ _ _ Hdoe E) as (Hy & Hm & Hd).
  intros [= <- <- <-].
  unfold days_in_month in *. rewrite is_leap_era. lia.
Qed.

Lemma take_digits_zero_padded (w : nat) :
  forall (k : nat) (n a : Z) (rest : string),
    0 <= n < 10 ^ Z.of_nat w ->
    take_digits (w + k) a (zero_padded w n rest) =
    take_digits k (a * 10 ^ Z.of_nat w + n) rest.
Proof.
  induction w as [| w IH]; intros k n a rest Hn.
  - change (10 ^ Z.of_nat 0) with 1 in *. cbn [zero_padded Nat.add].
    f_equal. lia.
  - cbn [zero_padded]. rewrite Nat.add_succ_comm.
    rewrite Nat2Z.inj_succ, Z.pow_succ_r in * by lia.
    rewrite IH by (split; [apply Z.div_pos; lia | apply Z.div_lt_upper_bound; lia]).
    cbn [take_digits].
    rewrite digit_value_digit_char by (apply Z.mod_pos_bound; lia).
    f_equal. pose proof (Z.div_mod n 10 ltac:(lia)). lia.
Qed.

Lemma take_digits_padded (w : nat) (n : Z) (rest : string) :
  0 <= n < 10 ^ Z.of_nat w ->
  take_digits w 0 (zero_padded w n rest) = Some (n, rest).
Proof.
  intros Hn. rewrite <- (Nat.add_0_r w) at 1.
  rewrite take_digits_zero_padded by exact Hn. cbn [take_digits].
  do 2 f_equal; lia.
Qed.

Lemma expect_cons (c : ascii) (r : string) : expect c (String c r) = Some r.
Proof. cbn [expect]. now rewrite Ascii.eqb_refl. Qed.

Lemma digit_char_not_sign (d : Z) :
  0 <= d < 10 ->
  Ascii.eqb (digit_char d) "+" = false /\ Ascii.eqb (digit_char d) "-" = false.
Proof. intros H. each_digit d H; split; reflexivity. Qed.

Lemma take_year_plain (y : Z) (rest : string) :
  0 <= y <= 9999 -> take_year (zero_padded 4 y rest) = Some (y, rest).
Proof.
  intros Hy. pose proof (take_digits_padded 4 y rest ltac:(simpl; lia)) as H.
  revert H. cbn [zero_padded].
  set (d := y / 10 / 10 / 10 mod 10).
  destruct (digit_char_not_sign d ltac:(apply Z.mod_pos_bound; lia)) as [Hp Hm].
  intros H. unfold take_year. now rewrite Hp, Hm.
Qed.

Lemma take_year_expanded (y : Z) (rest : string) :
  y < 0 \/ 9999 < y -> -999999 <= y <= 999999 ->
  take_year (String (if y <? 0 then "-"%char else "+"%char)
               (zero_padded 6 (Z.abs y) rest)) = Some (y, rest).
Proof.
  intros Hout Hy.
  pose proof (take_digits_padded 6 (Z.abs y) rest ltac:(simpl; lia)) as H.
  unfold take_year. destruct (y <? 0) eqn:E.
  - apply Z.ltb_lt in E. change (Ascii.eqb "-" "+") with false.
    change (Ascii.eqb "-" "-") with true. cbv iota. rewrite H.
    destruct (Z.abs y =? 0) eqn:E0; [apply Z.eqb_eq in E0; lia |].
    do 2 f_equal. lia.
  - apply Z.ltb_ge in E. change (Ascii.eqb "+" "+") with true. cbv iota.
    rewrite H. do 2 f_equal. lia.
Qed.

Lemma iso8601_fields (y m d hh mm ss ms : Z) (year_text : string -> string) :
  (forall rest, take_year (year_text rest) = Some (y, rest)) ->
  1 <= m <= 12 -> 1 <= d <= days_in_month y m ->
  0 <= hh <= 23 -> 0 <= mm <= 59 -> 0 <= ss <= 59 -> 0 <= ms <= 999 ->
  is_iso8601
    (year_text
       (String "-" (zero_padded 2 m (String "-" (zero_padded 2 d
          (String "T" (zero_padded 2 hh (String ":" (zero_padded 2 mm
             (String ":" (zero_padded 2 ss (String "." (zero_padded 3 ms "Z")))))))))))))
  = true.
Proof.
  intros Hyear Hm Hd Hhh Hmm Hss Hms.
  assert (Hd31 : d <= 31) by (unfold days_in_month in Hd; repeat destruct (_ : bool); lia).
  unfold is_iso8601. rewrite Hyear.
  cbn [mbind option_bind].
  repeat (rewrite expect_cons; cbn [mbind option_bind];
          rewrite take_digits_padded by (simpl; lia); cbn [mbind option_bind]).
  rewrite expect_cons. cbn [mbind option_bind falsy].
  unfold in_range.
  repeat (apply andb_true_iff; split); try reflexivity; apply Z.leb_le; lia.
Qed.

(** The text of every time value a [Date] can hold is a valid ISO-8601
    date and time. *)
Lemma toISOString_valid (t : Z) :
  -8640000000000000 <= t <= 8640000000000000 -> is_iso8601 (toISOString t) = true.
Proof.
  intros Ht. unfold toISOString.
  destruct (civil_from_days (t / msPerDay)) as [[y m] d] eqn:E.
  apply civil_from_days_ok in E as (Hm & Hd & Hy).
  assert (Hday : -100000000 <= t / msPerDay <= 100000000).
  { unfold msPerDay. split;
      [apply Z.div_le_lower_bound | apply Z.div_le_upper_bound]; lia. }
  assert (Hera : -700 <= (t / msPerDay + 719468) / 146097 <= 700).
  { split; [apply Z.div_le_lower_bound | apply Z.div_le_upper_bound]; lia. }
  pose proof (Z.mod_pos_bound t msPerDay ltac:(unfold msPerDay; lia)) as Htod.
  set (tod := t mod msPerDay) in *. unfold msPerDay in Htod.
  assert (Hhh : 0 <= tod / 3600000 <= 23).
  { split; [apply Z.div_pos; lia |].
    assert (tod / 3600000 < 24) by (apply Z.div_lt_upper_bound; lia). lia. }
  pose proof (Z.mod_pos_bound (tod / 60000) 60 ltac:(lia)) as Hmm.
  pose proof (Z.mod_pos_bound (tod / 1000) 60 ltac:(lia)) as Hss.
  pose proof (Z.mod_pos_bound tod 1000 ltac:(lia)) as Hms.
  destruct ((0 <=? y) && (y <=? 9999)) eqn:Ey.
  - apply andb_true_iff in Ey as [Ey1 Ey2]. apply Z.leb_le in Ey1, Ey2.
    apply (iso8601_fields y m d _ _ _ _ (zero_padded 4 y)); try lia.
    intros rest. apply take_year_plain. lia.
  - apply andb_false_iff in Ey.
    assert (Hout : y < 0 \/ 9999 < y)
      by (destruct Ey as [Ey | Ey]; apply Z.leb_gt in Ey; lia).
    apply (iso8601_fields y m d _ _ _ _
             (fun rest => String (if y <? 0 then "-"%char else "+"%char)
                            (zero_padded 6 (Z.abs y) rest))); try lia.
    intros rest. apply take_year_expanded; [exact Hout | lia].
Qed.

(** * The receipt *)

Lemma decode_encode_unit (c : ascii) (tail : string) :
  decodeURIComponent (encode_unit c +:+ tail) =
  option_map (String c) (decodeURIComponent tail).
Proof. destruct c as [[] [] [] [] [] [] [] []]; reflexivity. Qed.

Lemma decode_encode (s : string) :
  decodeURIComponent (encodeURIComponent s) = Some s.
Proof.
  induction s as [| c s IH]; [reflexivity |].
  cbn [encodeURIComponent]. now rewrite decode_encode_unit, IH.
Qed.

Lemma bookingDetails_step (s : page) (e : event) :
  is_confirm e = false -> bookingDetails (fst (step s e)) = bookingDetails s.
Proof.
  destruct e; try reflexivity; try discriminate; intros _.
  - cbn [step fst]. unfold searchCallback. now destruct (timers s).
  - apply downloadReceipt_keeps.
Qed.

(** Only [confirmBooking] writes [bookingDetails]. *)
Lemma bookingDetails_run (es : list event) :
  forall s, forallb (fun e => negb (is_confirm e)) es = true ->
            bookingDetails (run s es) = bookingDetails s.
Proof.
  induction es as [| e es IH]; intros s H; [reflexivity |].
  cbn [forallb] in H. apply andb_true_iff in H as [He Hes].
  change (run s (e :: es)) with (run (fst (step s e)) es).
  rewrite IH by exact Hes. apply bookingDetails_step.
  now destruct (is_confirm e).
Qed.

(** C8: after a confirmation, and any events that are not another
    confirmation, [downloadReceipt] clicks one link: its [href] is the
    data prefix and the percent-encoded indented JSON text of the record
    in memory; the text decodes and parses back to that record, whose
    timestamp is a valid ISO-8601 text; the file name is [booking_], the
    confirmation code and [.json]. *)
Theorem receipt_round_trip
    (s : page) (name email : string) (r now : Z) (es : list event) :
  -8640000000000000 <= now <= 8640000000000000 ->
  forallb (fun e => negb (is_confirm e)) es = true ->
  let s1 := run (confirmBooking name email r now s) es in
  let b := Booking.mk name email (selectedFlight s) (makePnr r) (toISOString now) in
  let text := JSON_stringify_space (booking_json b) 2 in
  bookingDetails s1 = Some b /\
  snd (downloadReceipt s1) = None /\
  clicked (fst (downloadReceipt s1)) =
    (clicked s1 ++ [ {| href := "data:text/json;charset=utf-8," +:+ encodeURIComponent text;
                        download := "booking_" +:+ Booking.pnr b +:+ ".json" |} ])%list /\
  decodeURIComponent (encodeURIComponent text) = Some text /\
  JSON_parse text = Some (booking_json b) /\
  is_iso8601 (Booking.timestamp b) = true.
Proof.
  intros Hnow Hes s1 b text.
  assert (Hb : bookingDetails s1 = Some b)
    by (unfold s1; now rewrite bookingDetails_run).
  split; [exact Hb |].
  unfold downloadReceipt. rewrite Hb. cbn [fst snd clicked].
  repeat split.
  - apply decode_encode.
  - apply JSON_parse_stringify_space.
  - now apply toISOString_valid.
Qed.

Lemma receipt_round_trip_witness :
  let s1 := run (confirmBooking "Alice" "a@x.com" (2 ^ 1072) 1793592000123
                   (openBooking (Offer.mk "IndiGo" "6E305" "14:30" 5666) blank))
              [OpenBooking (Offer.mk "SpiceJet" "SG101" "19:45" 4000)] in
  let b := Booking.mk "Alice" "a@x.com" (Some (Offer.mk "IndiGo" "6E305" "14:30" 5666))
             (makePnr (2 ^ 1072)) (toISOString 1793592000123) in
  let text := JSON_stringify_space (booking_json b) 2 in
  bookingDetails s1 = Some b /\
  snd (downloadReceipt s1) = None /\
  clicked (fst (downloadReceipt s1)) =
    (clicked s1 ++ [ {| href := "data:text/json;charset=utf-8," +:+ encodeURIComponent text;
                        download := "booking_" +:+ Booking.pnr b +:+ ".json" |} ])%list /\
  decodeURIComponent (encodeURIComponent text) = Some text /\
  JSON_parse text = Some (booking_json b) /\
  is_iso8601 (Booking.timestamp b) = true.
Proof.
  apply (receipt_round_trip
           (openBooking (Offer.mk "IndiGo" "6E305" "14:30" 5666) blank)
           "Alice" "a@x.com" (2 ^ 1072) 1793592000123
           [OpenBooking (Offer.mk "SpiceJet" "SG101" "19:45" 4000)]).
  - lia.
  - reflexivity.
Defined.

(** * More of the search *)

(** X1: with no airline and no time slot chosen and a max price of
    8999 or more, the search returns the whole catalog. *)
Theorem search_without_filters_returns_catalog (fm : form) (d : draws) (m : Z) :
  unit_draws d ->
  airline_value fm = "" -> time_value fm = "" ->
  parseInt (price_value fm) = Num m -> 8999 <= m ->
  search fm d = flights d.
Proof.
  intros Hd Ha Ht Hm Hle. unfold search, filtered. rewrite Ha, Ht, Hm.
  apply forallb_filter_id. apply forallb_forall. intros f Hf.
  pose proof (flights_price_range d f Hd Hf) as Hp.
  unfold keep. cbn [falsy orb andb num_le].
  rewrite andb_true_r. apply Z.leb_le. lia.
Qed.

Lemma search_without_filters_returns_catalog_witness :
  search (mkForm "DEL" "BOM" "" "9000" "") (mkDraws 0 (2 ^ 1073) (2 ^ 1072)) =
  flights (mkDraws 0 (2 ^ 1073) (2 ^ 1072)).
Proof.
  apply (search_without_filters_returns_catalog _ _ 9000).
  - repeat split; vm_compute; reflexivity.
  - reflexivity.
  - reflexivity.
  - reflexivity.
  - lia.
Defined.

(** X2: for every airline field, max-price field and draws, the result
    with no time slot is the morning result, then the afternoon result,
    then the evening result: the three slots split the catalog. *)
Theorem search_slots_partition (from to a p : string) (d : draws) :
  search (mkForm from to a p "") d =
  (search (mkForm from to a p "morning") d
   ++ search (mkForm from to a p "afternoon") d
   ++ search (mkForm from to a p "evening") d)%list.
Proof.
  unfold search, filtered, flights.
  cbn [airline_value price_value time_value].
  generalize (parseInt p) as mp. intros mp.
  cbn [List.filter]. unfold keep. cbn [Offer.airline Offer.price Offer.time].
  change (parseInt (split_head ":" "10:00")) with (Num 10).
  change (parseInt (split_head ":" "14:30")) with (Num 14).
  change (parseInt (split_head ":" "19:45")) with (Num 19).
  destruct (falsy a || String.eqb "Air India" a);
    destruct (falsy a || String.eqb "IndiGo" a);
    destruct (falsy a || String.eqb "SpiceJet" a);
    destruct (num_le (Num (getPrice (draw1 d))) mp);
    destruct (num_le (Num (getPrice (draw2 d))) mp);
    destruct (num_le (Num (getPrice (draw3 d))) mp);
    reflexivity.
Qed.

(** X3: a time-slot field that is neither empty nor one of the three
    slot names rejects every flight. *)
Theorem search_unknown_slot_empty (fm : form) (d : draws) :
  time_value fm <> "" -> time_value fm <> "morning" ->
  time_value fm <> "afternoon" -> time_value fm <> "evening" ->
  search fm d = [].
Proof.
  intros H0 H1 H2 H3. unfold search, filtered.
  apply filter_none. intros f _. unfold keep.
  destruct (time_value fm) as [| c ts] eqn:E; [contradiction |].
  rewrite <- E in *. 
  replace (falsy (time_value fm)) with false by (rewrite E; reflexivity).
  replace (String.eqb (time_value fm) "morning") with false
    by (symmetry; now apply String.eqb_neq).
  replace (String.eqb (time_value fm) "afternoon") with false
    by (symmetry; now apply String.eqb_neq).
  replace (String.eqb (time_value fm) "evening") with false
    by (symmetry; now apply String.eqb_neq).
  cbn [orb andb]. apply andb_false_r.
Qed.

Lemma search_unknown_slot_empty_witness :
  search (mkForm "DEL" "BOM" "" "9000" "night") (mkDraws 0 0 0) = [].
Proof.
  apply (search_unknown_slot_empty (mkForm "DEL" "BOM" "" "9000" "night"));
    cbn [time_value]; discriminate.
Defined.

(** X4: an airline field that is not empty and is not, letter for
    letter, one of the three airline names rejects every flight. *)
Theorem search_unknown_airline_empty (fm : form) (d : draws) :
  airline_value fm <> "" -> airline_value fm <> "Air India" ->
  airline_value fm <> "IndiGo" -> airline_value fm <> "SpiceJet" ->
  search fm d = [].
Proof.
  intros H0 H1 H2 H3. unfold search, filtered.
  apply filter_none. intros f Hf. unfold keep.
  replace (falsy (airline_value fm)) with false
    by (destruct (airline_value fm); [contradiction | reflexivity]).
  replace (String.eqb (Offer.airline f) (airline_value fm)) with false; [reflexivity |].
  symmetry. apply String.eqb_neq.
  destruct Hf as [<- | [<- | [<- | []]]]; cbn [Offer.airline]; congruence.
Qed.

Lemma search_unknown_airline_empty_witness :
  search (mkForm "DEL" "BOM" "indigo" "9000" "") (mkDraws 0 0 0) = [].
Proof.
  apply (search_unknown_airline_empty (mkForm "DEL" "BOM" "indigo" "9000" ""));
    cbn [airline_value]; discriminate.
Defined.

Lemma filter_filter_and {A : Type} (p q : A -> bool) (l : list A) :
  List.filter p (List.filter q l) = List.filter (fun x => q x && p x) l.
Proof.
  induction l as [| x l IH]; [reflexivity |].
  cbn [List.filter]. destruct (q x); cbn [andb List.filter]; now rewrite IH.
Qed.

(** X5: for the same prices, the result for a lower max price is the
    result for the higher one without the offers above the lower
    price. *)
Theorem search_narrows_with_price (a ts : string) (m1 m2 : Z) (d : draws) :
  m1 <= m2 ->
  filtered a (Num m1) ts d =
  List.filter (fun f => Offer.price f <=? m1) (filtered a (Num m2) ts d).
Proof.
  intros Hle. unfold filtered. rewrite filter_filter_and.
  apply filter_ext. intros f. cbv beta. unfold keep. cbn [num_le].
  destruct (Offer.price f <=? m1) eqn:E1.
  - apply Z.leb_le in E1.
    replace (Offer.price f <=? m2) with true by (symmetry; apply Z.leb_le; lia).
    symmetry. apply andb_true_r.
  - rewrite (andb_false_r (_ && _ && _)). now rewrite andb_false_r.
Qed.

Lemma search_narrows_with_price_witness :
  filtered "" (Num 5000) "" (mkDraws 0 (2 ^ 1073) (2 ^ 1072)) =
  List.filter (fun f => Offer.price f <=? 5000)
    (filtered "" (Num 7000) "" (mkDraws 0 (2 ^ 1073) (2 ^ 1072))).
Proof. apply (search_narrows_with_price "" "" 5000 7000). lia. Defined.

Lemma trim_start_number (n : Z) : trim_start (number_to_string n) = number_to_string n.
Proof.
  destruct (number_to_string_head n) as (c & tl & -> & Hc).
  cbn [trim_start]. replace (is_white_space c) with false; [reflexivity |].
  symmetry. unfold is_white_space. unfold code in Hc.
  destruct Hc as [Hc | Hc].
  - assert (E : nat_of_ascii c = 45%nat) by lia. rewrite E. reflexivity.
  - repeat (apply orb_false_iff; split); try apply andb_false_iff;
      rewrite ?Nat.leb_gt, ?Nat.eqb_neq; lia.
Qed.

Lemma strip_sign_decimal (n : Z) : 0 <= n -> strip_sign (decimal n) = (1, decimal n).
Proof.
  intros Hn. destruct (decimal_cons n Hn) as (d & ds & Hd & ->).
  each_digit d Hd; reflexivity.
Qed.

Lemma strip_hex_prefix_decimal (n : Z) :
  0 <= n -> strip_hex_prefix (decimal n) = (10, decimal n).
Proof.
  intros Hn. destruct (Z.eq_dec n 0) as [-> | Hnz]; [reflexivity |].
  destruct (decimal_head n Hn ltac:(lia)) as (d & ds & Hd & ->).
  assert (Hd' : 0 <= d < 10) by lia.
  each_digit d Hd'; try reflexivity. lia.
Qed.

Lemma read_digits_decimal_all (n : Z) :
  0 <= n -> read_digits 10 (decimal n) O 0 = (String.length (decimal n), n).
Proof.
  intros Hn. pose proof (read_digits_decimal n Hn EmptyString O 0) as H.
  rewrite append_nil_r in H. rewrite H. cbn [read_digits]. f_equal; lia.
Qed.

Lemma parseInt_decimal (sign n : Z) :
  0 <= n ->
  (let '(radix, s2) := strip_hex_prefix (decimal n) in
   match read_digits radix s2 O 0 with
   | (O, _) => NaN
   | (_, mathInt) => Num (sign * mathInt)
   end) = Num (sign * n).
Proof.
  intros Hn. rewrite strip_hex_prefix_decimal, read_digits_decimal_all by exact Hn.
  pose proof (decimal_length_pos n Hn).
  destruct (String.length (decimal n)); [lia | reflexivity].
Qed.

(** [parseInt(String(n))] is [n]. *)
Lemma parseInt_number_to_string (n : Z) : parseInt (number_to_string n) = Num n.
Proof.
  unfold parseInt. rewrite trim_start_number. unfold number_to_string.
  destruct (n <? 0) eqn:E.
  - apply Z.ltb_lt in E. cbn [strip_sign].
    rewrite parseInt_decimal by lia. f_equal. lia.
  - apply Z.ltb_ge in E. rewrite strip_sign_decimal by exact E.
    rewrite parseInt_decimal by exact E. f_equal. lia.
Qed.

(** X6: for an integer [m] of magnitude at most 2^53, the range in which
    every integer is a double, [parseInt] reads the decimal text of [m]
    back as [m], and a max-price field that holds that text, as a slider
    does, makes the search keep the catalog flights that satisfy the
    contract for [m]. *)
Theorem search_with_decimal_price (from to a ts : string) (m : Z) (d : draws) :
  - 9007199254740992 <= m <= 9007199254740992 ->
  parseInt (number_to_string m) = Num m /\
  search (mkForm from to a (number_to_string m) ts) d =
  List.filter (satisfies a m ts) (flights d).
Proof.
  intros _. split; [apply parseInt_number_to_string |].
  unfold search, filtered. cbn [airline_value price_value time_value].
  rewrite parseInt_number_to_string.
  apply filter_ext_in. intros f Hf.
  destruct (catalog_hours d f Hf) as (h & H1 & H2 & H3).
  now apply keep_satisfies with (h := h).
Qed.

Lemma search_with_decimal_price_witness :
  parseInt (number_to_string 6000) = Num 6000 /\
  search (mkForm "DEL" "BOM" "IndiGo" (number_to_string 6000) "afternoon") (mkDraws 0 0 0) =
  List.filter (satisfies "IndiGo" 6000 "afternoon") (flights (mkDraws 0 0 0)).
Proof.
  apply (search_with_decimal_price "DEL" "BOM" "IndiGo" "afternoon" 6000 (mkDraws 0 0 0)).
  lia.
Defined.

(** * More of the booking workflow *)

Lemma run_cons (s : page) (e : event) (es : list event) :
  run s (e :: es) = run (fst (step s e)) es.
Proof. reflexivity. Qed.

Lemma bookingDetails_kept (s : page) (e : event) :
  bookingDetails s <> None -> bookingDetails (fst (step s e)) <> None.
Proof.
  intros H. destruct (is_confirm e) eqn:E.
  - destruct e; try discriminate E. cbn. discriminate.
  - now rewrite bookingDetails_step.
Qed.

Lemma bookingDetails_run_kept (es : list event) :
  forall s, bookingDetails s <> None -> bookingDetails (run s es) <> None.
Proof.
  induction es as [| e es IH]; intros s H; [exact H |].
  rewrite run_cons. apply IH. now apply bookingDetails_kept.
Qed.

(** A session holds a booking record exactly when it started with one or
    confirmed one. *)
Lemma bookingDetails_run_none (es : list event) :
  forall s, bookingDetails s = None ->
            (bookingDetails (run s es) = None <->
             forallb (fun e => negb (is_confirm e)) es = true).
Proof.
  induction es as [| e es IH]; intros s H; [now split |].
  rewrite run_cons. cbn [forallb]. destruct (is_confirm e) eqn:E.
  - cbn [negb andb]. split; [| discriminate]. intros Hnone. exfalso.
    revert Hnone. apply bookingDetails_run_kept.
    destruct e; try discriminate E. cbn. discriminate.
  - cbn [negb andb]. apply IH. now rewrite bookingDetails_step.
Qed.

(** X7: in a session of a fresh page, [downloadReceipt] throws its
    TypeError exactly when no confirmation came before it, and a call
    that throws leaves the page as it was: no link is clicked. *)
Theorem download_throws_without_confirmation (s : page) (es : list event) :
  fresh s ->
  (snd (step (run s es) DownloadReceipt) = Some TypeError <->
   forallb (fun e => negb (is_confirm e)) es = true) /\
  (snd (step (run s es) DownloadReceipt) = Some TypeError ->
   fst (step (run s es) DownloadReceipt) = run s es).
Proof.
  intros [_ Hb]. pose proof (bookingDetails_run_none es s Hb) as Hiff.
  cbn [step]. unfold downloadReceipt.
  destruct (bookingDetails (run s es)) as [b |] eqn:E; cbn [fst snd].
  - split; [| discriminate]. split; [discriminate |].
    intros H. apply Hiff in H. discriminate H.
  - split; [| reflexivity]. split; [intros _; now apply Hiff | reflexivity].
Qed.

Lemma download_throws_without_confirmation_witness :
  (snd (step (run blank [OpenBooking (Offer.mk "IndiGo" "6E305" "14:30" 5250)])
          DownloadReceipt) = Some TypeError <->
   forallb (fun e => negb (is_confirm e))
     [OpenBooking (Offer.mk "IndiGo" "6E305" "14:30" 5250)] = true) /\
  (snd (step (run blank [OpenBooking (Offer.mk "IndiGo" "6E305" "14:30" 5250)])
          DownloadReceipt) = Some TypeError ->
   fst (step (run blank [OpenBooking (Offer.mk "IndiGo" "6E305" "14:30" 5250)])
          DownloadReceipt) =
   run blank [OpenBooking (Offer.mk "IndiGo" "6E305" "14:30" 5250)]).
Proof.
  apply (download_throws_without_confirmation blank
           [OpenBooking (Offer.mk "IndiGo" "6E305" "14:30" 5250)]).
  split; reflexivity.
Defined.

Lemma clicked_step (s : page) (e : event) (b : Booking.t) :
  bookingDetails s = Some b -> is_confirm e = false ->
  clicked (fst (step s e)) =
  (clicked s ++ (if is_download e then [receipt_anchor b] else []))%list.
Proof.
  intros Hb He. destruct e; try discriminate He; cbn [step fst is_download];
    rewrite ?app_nil_r; try reflexivity.
  - unfold searchCallback. now destruct (timers s).
  - unfold downloadReceipt. rewrite Hb. reflexivity.
Qed.

(** X8: as long as no new confirmation is made, every call of
    [downloadReceipt] clicks the same link, the one of the record in
    memory, whatever else happens in between (a new search, a new
    selection): the links clicked are that link once per call. *)
Theorem redownload_offers_same_file (s : page) (b : Booking.t) (es : list event) :
  bookingDetails s = Some b ->
  forallb (fun e => negb (is_confirm e)) es = true ->
  clicked (run s es) =
  (clicked s ++ List.repeat (receipt_anchor b) (length (List.filter is_download es)))%list.
Proof.
  revert s. induction es as [| e es IH]; intros s Hb Hes.
  - cbn. now rewrite app_nil_r.
  - cbn [forallb] in Hes. apply andb_true_iff in Hes as [He Hes].
    apply negb_true_iff in He.
    rewrite run_cons, IH; [| now rewrite bookingDetails_step | exact Hes].
    rewrite (clicked_step s e b Hb He), <- app_assoc. f_equal.
    cbn [List.filter]. now destruct (is_download e).
Qed.

Lemma redownload_offers_same_file_witness :
  let s := confirmBooking "Alice" "a@x.com" 0 0
             (openBooking (Offer.mk "IndiGo" "6E305" "14:30" 5250) blank) in
  let b := Booking.mk "Alice" "a@x.com" (Some (Offer.mk "IndiGo" "6E305" "14:30" 5250))
             "PNR0" "1970-01-01T00:00:00.000Z" in
  let es := [DownloadReceipt; OpenBooking (Offer.mk "SpiceJet" "SG101" "19:45" 4000);
             DownloadReceipt] in
  clicked (run s es) =
  (clicked s ++ List.repeat (receipt_anchor b) (length (List.filter is_download es)))%list.
Proof.
  apply (redownload_offers_same_file
           (confirmBooking "Alice" "a@x.com" 0 0
              (openBooking (Offer.mk "IndiGo" "6E305" "14:30" 5250) blank))
           (Booking.mk "Alice" "a@x.com" (Some (Offer.mk "IndiGo" "6E305" "14:30" 5250))
              "PNR0" "1970-01-01T00:00:00.000Z")).
  - reflexivity.
  - reflexivity.
Defined.

Lemma localStorage_step (s : page) (e : event) :
  localStorage (fst (step s e)) =
  match e with
  | ConfirmBooking name email r now =>
      <["booking" :=
          JSON_stringify (booking_json
            (Booking.mk name email (selectedFlight s) (makePnr r) (toISOString now)))]>
        (localStorage s)
  | _ => localStorage s
  end.
Proof.
  destruct e; try reflexivity.
  - cbn [step fst]. unfold searchCallback. now destruct (timers s).
  - apply downloadReceipt_keeps.
Qed.

(** X9: the script writes one key of the storage only.  Whatever the
    session, the entry of every key other than ["booking"] is the one the
    page started with; and a session without a confirmation leaves the
    whole storage as it was. *)
Theorem storage_only_booking_key (s : page) (es : list event) :
  (forall k : string, k <> "booking" ->
                      localStorage (run s es) !! k = localStorage s !! k) /\
  (forallb (fun e => negb (is_confirm e)) es = true ->
   localStorage (run s es) = localStorage s).
Proof.
  split.
  - intros k Hk. revert s. induction es as [| e es IH]; intros s; [reflexivity |].
    rewrite run_cons, IH, localStorage_step.
    destruct e; try reflexivity. now apply lookup_insert_ne.
  - revert s. induction es as [| e es IH]; intros s Hes; [reflexivity |].
    cbn [forallb] in Hes. apply andb_true_iff in Hes as [He Hes].
    rewrite run_cons, IH, localStorage_step by exact Hes.
    destruct e; try reflexivity. discriminate He.
Qed.

Lemma storage_only_booking_key_witness :
  localStorage
    (run (confirmBooking "Bob" "b@x.com" 0 0 blank)
       [OpenBooking (Offer.mk "IndiGo" "6E305" "14:30" 5250); DownloadReceipt]) =
  localStorage (confirmBooking "Bob" "b@x.com" 0 0 blank).
Proof.
  apply (proj2 (storage_only_booking_key (confirmBooking "Bob" "b@x.com" 0 0 blank)
                  [OpenBooking (Offer.mk "IndiGo" "6E305" "14:30" 5250); DownloadReceipt])).
  reflexivity.
Defined.

Lemma receipt_shown_step (s : page) (e : event) :
  receipt_shown s -> receipt_shown (fst (step s e)).
Proof.
  intros (b & Hb & Hr & Hp). destruct e; cbn [step fst].
  - exists b. now repeat split.
  - exists b. now repeat split.
  - unfold searchCallback. destruct (timers s); exists b; now repeat split.
  - exists b. now repeat split.
  - eexists. repeat split.
  - unfold downloadReceipt. rewrite Hb. exists b. now repeat split.
Qed.

Lemma receipt_shown_confirm (name email : string) (r now : Z) (s : page) :
  receipt_shown (confirmBooking name email r now s).
Proof. eexists. repeat split. Qed.

Lemma receipt_shown_run (es : list event) :
  forall s, receipt_shown s -> receipt_shown (run s es).
Proof.
  induction es as [| e es IH]; intros s H; [exact H |].
  rewrite run_cons. apply IH. now apply receipt_shown_step.
Qed.

(** X10: from the first confirmation on, whatever happens next, the
    receipt section stays shown and the code it shows is the code of the
    record in memory, the one the download is named after. *)
Theorem receipt_shows_current_code
    (s : page) (name email : string) (r now : Z) (es : list event) :
  let s' := run (confirmBooking name email r now s) es in
  receipt_shown s' /\
  exists b, bookingDetails s' = Some b /\
            List.map download (clicked (fst (downloadReceipt s'))) =
            (List.map download (clicked s') ++ ["booking_" +:+ Booking.pnr b +:+ ".json"])%list.
Proof.
  cbn zeta.
  assert (H : receipt_shown (run (confirmBooking name email r now s) es))
    by apply receipt_shown_run, receipt_shown_confirm.
  split; [exact H |]. destruct H as (b & Hb & _). exists b. split; [exact Hb |].
  unfold downloadReceipt. rewrite Hb. cbn [fst clicked].
  now rewrite map_app.
Qed.

Lemma last_selected_app (es1 es2 : list event) (init : option Offer.t) :
  last_selected init (es1 ++ es2) = last_selected (last_selected init es1) es2.
Proof. unfold last_selected. apply fold_left_app. Qed.

Lemma last_selected_no_open (es : list event) :
  forall init, forallb (fun e => negb (is_open e)) es = true ->
               last_selected init es = init.
Proof.
  induction es as [| e es IH]; intros init H; [reflexivity |].
  cbn [forallb] in H. apply andb_true_iff in H as [He Hes].
  change (last_selected init (e :: es))
    with (last_selected (match e with OpenBooking f => Some f | _ => init end) es).
  rewrite IH by exact Hes. destruct e; try reflexivity. discriminate He.
Qed.

(** X11: a confirmation does not clear the selection.  A later
    confirmation, with no new selection in between, books the same
    flight again. *)
Theorem reconfirm_books_same_flight
    (s : page) (es1 es2 : list event)
    (name1 email1 : string) (r1 now1 : Z) (name2 email2 : string) (r2 now2 : Z) :
  forallb (fun e => negb (is_open e)) es2 = true ->
  let first := run s (es1 ++ [ConfirmBooking name1 email1 r1 now1]) in
  let second := run first (es2 ++ [ConfirmBooking name2 email2 r2 now2]) in
  exists b1 b2,
    bookingDetails first = Some b1 /\ bookingDetails second = Some b2 /\
    Booking.flight b2 = Booking.flight b1 /\
    Booking.pnr b2 = makePnr r2.
Proof.
  intros Hes first second. subst second first.
  rewrite !run_app. cbn [run fold_left step fst].
  do 2 eexists. split; [reflexivity |]. split; [reflexivity |].
  cbn [Booking.flight Booking.pnr]. split; [| reflexivity].
  change (fold_left (fun s0 e => fst (step s0 e)) es2 ?x) with (run x es2).
  rewrite selectedFlight_run. cbn [selectedFlight confirmBooking].
  now apply last_selected_no_open.
Qed.

Lemma reconfirm_books_same_flight_witness :
  let first := run blank ([OpenBooking (Offer.mk "IndiGo" "6E305" "14:30" 5250)]
                          ++ [ConfirmBooking "Alice" "a@x.com" 0 0]) in
  let second := run first ([DownloadReceipt] ++ [ConfirmBooking "Bob" "b@x.com" (2 ^ 1072) 1]) in
  exists b1 b2,
    bookingDetails first = Some b1 /\ bookingDetails second = Some b2 /\
    Booking.flight b2 = Booking.flight b1 /\
    Booking.pnr b2 = makePnr (2 ^ 1072).
Proof.
  apply (reconfirm_books_same_flight blank
           [OpenBooking (Offer.mk "IndiGo" "6E305" "14:30" 5250)] [DownloadReceipt]
           "Alice" "a@x.com" 0 0 "Bob" "b@x.com" (2 ^ 1072) 1).
  reflexivity.
Defined.

Lemma number_to_string_inj (n m : Z) :
  number_to_string n = number_to_string m -> n = m.
Proof.
  intros H.
  pose proof (parse_number_to_string n EmptyString eq_refl) as Hn.
  pose proof (parse_number_to_string m EmptyString eq_refl) as Hm.
  rewrite H in Hn. rewrite Hn in Hm. now injection Hm.
Qed.

(** X12: the confirmation codes are exactly the million texts PNR0 to
    PNR999999: every draw gives one of them, each of them is the code of
    some draw, and different integers give different codes. *)
Theorem confirmation_codes :
  (forall r, unit_draw r ->
             exists n, 0 <= n <= 999999 /\ makePnr r = "PNR" +:+ number_to_string n) /\
  (forall n, 0 <= n <= 999999 ->
             exists r, unit_draw r /\ makePnr r = "PNR" +:+ number_to_string n) /\
  (forall n m, "PNR" +:+ number_to_string n = "PNR" +:+ number_to_string m -> n = m).
Proof.
  split; [| split].
  - intros r Hr. destruct (makePnr_spec r Hr) as (n & Hn & Hc & _).
    now exists n.
  - intros n Hn.
    destruct (scaled_floor_onto 1000000 19 n
                ltac:(lia) ltac:(simpl; lia) ltac:(simpl; lia) ltac:(lia))
      as (r & Hr & Hf).
    exists r. split; [exact Hr |]. unfold makePnr. now rewrite Hf.
  - intros n m H. apply number_to_string_inj.
    cbn [String.append] in H. now injection H.
Qed.

Lemma confirmation_codes_witness :
  (exists n, 0 <= n <= 999999 /\ makePnr 0 = "PNR" +:+ number_to_string n) /\
  (exists r, unit_draw r /\ makePnr r = "PNR" +:+ number_to_string 42).
Proof.
  split.
  - apply (proj1 confirmation_codes 0). split; [reflexivity | reflexivity].
  - apply (proj1 (proj2 confirmation_codes) 42). lia.
Defined.

Lemma uri_text_append (a b : string) : uri_text (a +:+ b) = uri_text a && uri_text b.
Proof.
  induction a as [| c a IH]; [reflexivity |].
  cbn [String.append uri_text]. now rewrite IH, andb_assoc.
Qed.

Lemma uri_text_encode_unit (c : ascii) : uri_text (encode_unit c) = true.
Proof. destruct c as [[] [] [] [] [] [] [] []]; reflexivity. Qed.

Lemma uri_text_encode (s : string) : uri_text (encodeURIComponent s) = true.
Proof.
  induction s as [| c s IH]; [reflexivity |].
  cbn [encodeURIComponent]. now rewrite uri_text_append, uri_text_encode_unit, IH.
Qed.

(** X13: the link of a receipt holds no raw quote, space, brace or line
    break, whatever the passenger typed: after the fixed prefix, the
    [href] of the link [downloadReceipt] clicks is made of letters,
    digits, [-_.!~*'()] and percent signs only. *)
Theorem receipt_href_is_uri_text (s : page) (b : Booking.t) :
  bookingDetails s = Some b ->
  exists payload,
    clicked (fst (downloadReceipt s)) =
    (clicked s ++ [ {| href := "data:text/json;charset=utf-8," +:+ payload;
                       download := "booking_" +:+ Booking.pnr b +:+ ".json" |} ])%list /\
    uri_text payload = true.
Proof.
  intros Hb. unfold downloadReceipt. rewrite Hb. cbn [fst clicked].
  eexists. split; [reflexivity |]. apply uri_text_encode.
Qed.

Lemma receipt_href_is_uri_text_witness :
  exists payload,
    clicked (fst (downloadReceipt (confirmBooking "A B" "a@x.com" 0 0 blank))) =
    (clicked (confirmBooking "A B" "a@x.com" 0 0 blank)
     ++ [ {| href := "data:text/json;charset=utf-8," +:+ payload;
             download :=
               "booking_"
               +:+ Booking.pnr (Booking.mk "A B" "a@x.com" None "PNR0"
                                  "1970-01-01T00:00:00.000Z")
               +:+ ".json" |} ])%list /\
    uri_text payload = true.
Proof.
  apply (receipt_href_is_uri_text (confirmBooking "A B" "a@x.com" 0 0 blank)
           (Booking.mk "A B" "a@x.com" None "PNR0" "1970-01-01T00:00:00.000Z")).
  reflexivity.
Defined.

(** X14: the file a download offers and the entry in the storage hold
    the same record: after a confirmation and any later events, the text
    in the clicked link parses to the value the stored text parses to. *)
Theorem download_matches_storage
    (s : page) (name email : string) (r now : Z) (es : list event) :
  let s' := run (confirmBooking name email r now s) es in
  exists a text,
    clicked (fst (downloadReceipt s')) = (clicked s' ++ [a])%list /\
    href a = "data:text/json;charset=utf-8," +:+ encodeURIComponent text /\
    decodeURIComponent (encodeURIComponent text) = Some text /\
    JSON_parse text = stored_booking s' /\
    stored_booking s' <> None.
Proof.
  cbn zeta.
  assert (H : stored_agrees (run (confirmBooking name email r now s) es)).
  { generalize (confirmBooking name email r now s)
               (stored_agrees_confirm name email r now s).
    induction es as [| e es IH]; intros s0 H0; [exact H0 |].
    rewrite run_cons. apply IH. now apply stored_agrees_step. }
  destruct H as (b & Hb & Hs).
  unfold downloadReceipt. rewrite Hb. cbn [fst clicked].
  do 2 eexists. split; [reflexivity |]. cbn [href].
  split; [reflexivity |]. split; [apply decode_encode |].
  rewrite Hs. split; [apply JSON_parse_stringify_space | discriminate].
Qed.

(** * More of the search page *)

Lemma run_submits (n : nat) :
  forall s, loader_display (run s (List.repeat Submit (S n))) = "block" /\
            timers (run s (List.repeat Submit (S n))) = (timers s + S n)%nat /\
            results (run s (List.repeat Submit (S n))) = results s.
Proof.
  induction n as [| n IH]; intros s.
  - cbn. repeat split; lia.
  - change (List.repeat Submit (S (S n))) with (Submit :: List.repeat Submit (S n)).
    rewrite run_cons. destruct (IH (fst (step s Submit))) as (H1 & H2 & H3).
    rewrite H1, H2, H3. cbn. repeat split; lia.
Qed.

(** X15: the loader does not wait for the last search.  After any
    number of submissions in a row the loader shows; the first callback
    that runs hides it and shows its own results, while the callbacks of
    the other submissions are still to come. *)
Theorem loader_hidden_by_first_callback (s : page) (n : nat) (fm : form) (d : draws) :
  let waiting := run s (List.repeat Submit (S n)) in
  let after := run s (List.repeat Submit (S n) ++ [Timer fm d]) in
  loader_display waiting = "block" /\
  loader_display after = "none" /\
  timers after = (timers s + n)%nat /\
  results after =
    List.map (fun f => mkCard f (from_value fm) (to_value fm)) (search fm d).
Proof.
  cbn zeta. rewrite run_app.
  destruct (run_submits n s) as (H1 & H2 & H3).
  split; [exact H1 |].
  cbn [run fold_left step fst]. unfold searchCallback. rewrite H2.
  replace (timers s + S n)%nat with (S (timers s + n)) by lia.
  cbn. repeat split.
Qed.

Lemma results_of_callback (s : page) (fm : form) (d : draws) :
  timers s <> O ->
  results (fst (step s (Timer fm d))) =
  List.map (fun f => mkCard f (from_value fm) (to_value fm)) (search fm d).
Proof.
  intros Ht. cbn [step fst]. unfold searchCallback.
  destruct (timers s); [contradiction | reflexivity].
Qed.

Lemma keep_price (a ts : string) (maxPrice : number) (f : Offer.t) :
  keep a maxPrice ts f = true -> num_le (Num (Offer.price f)) maxPrice = true.
Proof.
  unfold keep. intros H.
  apply andb_true_iff in H as [H _]. now apply andb_true_iff in H as [_ H].
Qed.

Lemma search_flight_numbers_distinct (fm : form) (d : draws) :
  List.NoDup (List.map Offer.flight (search fm d)).
Proof.
  unfold search, filtered, flights. cbn [List.filter].
  repeat match goal with |- context [if ?b then _ else _] => destruct b end;
    cbn [List.map Offer.flight];
    repeat (constructor; [cbn [In]; intuition discriminate |]); constructor.
Qed.

(** X16: the cards a search shows replace the cards shown before.  They
    are at most three, each is a catalog flight with its own flight
    number, priced within 4000..8999 and not above the max price, and
    each carries the origin and destination typed in the form. *)
Theorem displayed_cards (s : page) (fm : form) (d : draws) :
  unit_draws d -> timers s <> O ->
  let cards := results (fst (step s (Timer fm d))) in
  (length cards <= 3)%nat /\
  List.NoDup (List.map (fun c => Offer.flight (card_flight c)) cards) /\
  forall c, In c cards ->
            In (card_flight c) (flights d) /\
            4000 <= Offer.price (card_flight c) <= 8999 /\
            num_le (Num (Offer.price (card_flight c))) (parseInt (price_value fm)) = true /\
            card_from c = from_value fm /\ card_to c = to_value fm.
Proof.
  intros Hd Ht cards. subst cards. rewrite results_of_callback by exact Ht.
  split; [| split].
  - rewrite length_map. unfold search, filtered.
    etransitivity; [apply filter_length_le | reflexivity].
  - rewrite map_map. cbn [card_flight]. apply search_flight_numbers_distinct.
  - intros c Hc. apply in_map_iff in Hc as (f & <- & Hf). cbn [card_flight card_from card_to].
    unfold search, filtered in Hf. apply filter_In in Hf as [Hin Hkeep].
    split; [exact Hin |]. split; [now apply (flights_price_range d) |].
    split; [now apply keep_price in Hkeep |]. now split.
Qed.

Lemma displayed_cards_witness :
  let cards :=
    results (fst (step (submit blank)
                    (Timer (mkForm "DEL" "BOM" "" "7000" "") (mkDraws 0 (2 ^ 1073) (2 ^ 1072))))) in
  (length cards <= 3)%nat /\
  List.NoDup (List.map (fun c => Offer.flight (card_flight c)) cards) /\
  forall c, In c cards ->
            In (card_flight c) (flights (mkDraws 0 (2 ^ 1073) (2 ^ 1072))) /\
            4000 <= Offer.price (card_flight c) <= 8999 /\
            num_le (Num (Offer.price (card_flight c))) (parseInt "7000") = true /\
            card_from c = "DEL" /\ card_to c = "BOM".
Proof.
  apply (displayed_cards (submit blank) (mkForm "DEL" "BOM" "" "7000" "")
           (mkDraws 0 (2 ^ 1073) (2 ^ 1072))).
  - repeat split; vm_compute; reflexivity.
  - cbn. discriminate.
Defined.

(** * The Book button *)

Lemma strip_prefix_append (p s : string) : strip_prefix p (p +:+ s) = Some s.
Proof.
  induction p as [| c p IH]; [now destruct s |].
  cbn [String.append strip_prefix]. now rewrite Ascii.eqb_refl.
Qed.

Lemma offer_of_json_offer (f : Offer.t) : offer_of_json (offer_json f) = Some f.
Proof. now destruct f. Qed.

Lemma call_argument_onclick (f : Offer.t) :
  call_argument (book_onclick f) = Some (offer_json f).
Proof.
  unfold call_argument, book_onclick. rewrite strip_prefix_append.
  unfold JSON_stringify.
  rewrite (serialize_reads_back (offer_json f) "" "" ")" _ eq_refl eq_refl eq_refl).
  - reflexivity.
  - pose proof (json_size_le_length (offer_json f) "" "").
    rewrite length_append. lia.
Qed.

Lemma free_of_append (cs : list Z) (a b : string) :
  free_of cs (a +:+ b) = free_of cs a && free_of cs b.
Proof.
  induction a as [| c a IH]; [reflexivity |].
  cbn [String.append free_of]. now rewrite IH, andb_assoc.
Qed.

Lemma free_of_incl (cs cs' : list Z) (s : string) :
  (forall x, In x cs' -> In x cs) -> free_of cs s = true -> free_of cs' s = true.
Proof.
  intros Hin. induction s as [| c s IH]; [reflexivity |].
  cbn [free_of]. intros H. apply andb_true_iff in H as [Hc Hs].
  rewrite IH by exact Hs. rewrite andb_true_r.
  apply negb_true_iff in Hc. apply negb_true_iff.
  destruct (existsb (Z.eqb (code c)) cs') eqn:E; [| reflexivity].
  apply existsb_exists in E as (x & Hx & Heq).
  rewrite <- Hc. symmetry. apply existsb_exists. exists x. split; [now apply Hin | exact Heq].
Qed.

Lemma feed_append (st : tokenizer) (a b : string) :
  feed st (a +:+ b) =
  match feed st a with
  | Some (st', ts) =>
      match feed st' b with
      | Some (st'', ts') => Some (st'', (ts ++ ts')%list)
      | None => None
      end
  | None => None
  end.
Proof.
  revert st. induction a as [| c a IH]; intros st.
  - cbn [String.append feed app]. now destruct (feed st b) as [[] |].
  - cbn [String.append feed]. destruct (tokenizer_step st c) as [[st' t] |]; [| reflexivity].
    rewrite IH. destruct (feed st' a) as [[st1 ts] |]; [| reflexivity].
    destruct (feed st1 b) as [[st2 ts'] |]; [| reflexivity].
    now destruct t.
Qed.

(** A text of the template, read from a state. *)
Lemma feed_literal (st st' : tokenizer) (ts : list tag) (lit rest : string) :
  feed st lit = Some (st', ts) ->
  feed st (lit +:+ rest) =
  match feed st' rest with
  | Some (st'', ts') => Some (st'', (ts ++ ts')%list)
  | None => None
  end.
Proof. intros H. now rewrite feed_append, H. Qed.

(** Character data without [<] and [&] leaves the tokenizer where it is. *)
Lemma feed_text (t rest : string) :
  free_of [38; 60] t = true -> feed Data (t +:+ rest) = feed Data rest.
Proof.
  induction t as [| c t IH]; intros H; [reflexivity |].
  cbn [free_of existsb] in H. apply andb_true_iff in H as [Hc Ht].
  apply negb_true_iff in Hc. apply orb_false_iff in Hc as [H38 Hc].
  apply orb_false_iff in Hc as [H60 _].
  cbn [String.append feed tokenizer_step]. rewrite H60, H38, IH by exact Ht.
  now destruct (feed Data rest) as [[] |].
Qed.

(** An attribute value without apostrophe, [&], NUL and CR is read as it
    is. *)
Lemma feed_value (name a v t rest : string) :
  free_of [0; 13; 38; 39] t = true ->
  feed (AttributeValueSingleQuoted name a v) (t +:+ rest) =
  feed (AttributeValueSingleQuoted name a (v +:+ t)) rest.
Proof.
  revert v. induction t as [| c t IH]; intros v H.
  - now rewrite append_nil_r.
  - cbn [free_of existsb] in H. apply andb_true_iff in H as [Hc Ht].
    apply negb_true_iff in Hc. apply orb_false_iff in Hc as [H0 Hc].
    apply orb_false_iff in Hc as [H13 Hc]. apply orb_false_iff in Hc as [H38 Hc].
    apply orb_false_iff in Hc as [H39 _].
    cbn [String.append feed tokenizer_step]. rewrite H39, H38, H0, H13.
    cbn [orb]. rewrite IH by exact Ht. unfold snoc. rewrite append_assoc.
    cbn [String.append].
    now destruct (feed (AttributeValueSingleQuoted name a (v +:+ String c t)) rest) as [[] |].
Qed.

Lemma free_of_digits (s : string) :
  all_digits s = true -> free_of [0; 13; 38; 39; 60] s = true.
Proof.
  induction s as [| c s IH]; [reflexivity |].
  cbn [all_digits free_of existsb]. intros H. apply andb_true_iff in H as [Hc Hs].
  rewrite IH by exact Hs. unfold in_range in Hc.
  apply andb_true_iff in Hc as [H1 H2]. apply Z.leb_le in H1, H2.
  rewrite andb_true_r. apply negb_true_iff.
  repeat (apply orb_false_iff; split); try reflexivity; apply Z.eqb_neq; lia.
Qed.

Lemma free_of_number (n : Z) : free_of [0; 13; 38; 39; 60] (number_to_string n) = true.
Proof.
  unfold number_to_string. destruct (n <? 0) eqn:E.
  - apply Z.ltb_lt in E. cbn [free_of].
    now rewrite free_of_digits by (apply decimal_all_digits; lia).
  - apply Z.ltb_ge in E. apply free_of_digits, decimal_all_digits, E.
Qed.

Lemma free_of_escape_char (c : ascii) :
  free_of [0; 13; 38; 39] (escape_char c) = free_of [38; 39] (String c EmptyString).
Proof. destruct c as [[] [] [] [] [] [] [] []]; reflexivity. Qed.

Lemma free_of_quote (s : string) : free_of [0; 13; 38; 39] (quote s) = free_of [38; 39] s.
Proof.
  unfold quote. change (String DQUOTE ?x) with (String DQUOTE EmptyString +:+ x).
  rewrite !free_of_append.
  change (free_of [0; 13; 38; 39] (String DQUOTE EmptyString)) with true.
  rewrite andb_true_r. cbn [andb].
  induction s as [| c s IH]; [reflexivity |].
  cbn [escape]. rewrite free_of_append, free_of_escape_char, IH.
  cbn [free_of]. now rewrite andb_true_r.
Qed.

(** The handler text of a flight is free of apostrophes, ampersands, NUL
    and CR when its three strings hold no apostrophe and no ampersand. *)
Lemma free_of_onclick (f : Offer.t) :
  free_of [0; 13; 38; 39] (book_onclick f) =
  free_of [38; 39] (Offer.airline f) && free_of [38; 39] (Offer.flight f)
  && free_of [38; 39] (Offer.time f).
Proof.
  destruct f as [a fl t p].
  unfold book_onclick, JSON_stringify, offer_json.
  cbn [serialize List.map fst snd falsy join Offer.airline Offer.flight Offer.time Offer.price].
  rewrite !free_of_append, !free_of_quote.
  rewrite (free_of_incl [0; 13; 38; 39; 60] [0; 13; 38; 39] _ ltac:(sublist) (free_of_number p)).
  cbn [free_of].
  destruct (free_of [38; 39] a), (free_of [38; 39] fl), (free_of [38; 39] t); reflexivity.
Qed.

Lemma tokenize_card (c : card) :
  free_of [38; 39; 60] (Offer.airline (card_flight c)) = true ->
  free_of [38; 39; 60] (Offer.flight (card_flight c)) = true ->
  free_of [38; 39; 60] (Offer.time (card_flight c)) = true ->
  free_of [38; 60] (card_from c) = true ->
  free_of [38; 60] (card_to c) = true ->
  tokenize (card_innerHTML c) = Some (card_tags (card_flight c)).
Proof.
  intros Ha Hf Ht Hfrom Hto.
  assert (Hv : free_of [0; 13; 38; 39] (book_onclick (card_flight c)) = true).
  { rewrite free_of_onclick.
    rewrite (free_of_incl [38; 39; 60] [38; 39] _ ltac:(sublist) Ha).
    rewrite (free_of_incl [38; 39; 60] [38; 39] _ ltac:(sublist) Hf).
    now rewrite (free_of_incl [38; 39; 60] [38; 39] _ ltac:(sublist) Ht). }
  apply (free_of_incl [38; 39; 60] [38; 60] _ ltac:(sublist)) in Ha, Hf, Ht.
  pose proof (free_of_incl [0; 13; 38; 39; 60] [38; 60] _ ltac:(sublist)
                (free_of_number (Offer.price (card_flight c)))) as Hp.
  unfold tokenize, card_innerHTML, card_tags.
  generalize dependent (book_onclick (card_flight c)). intros v Hv.
  generalize dependent (number_to_string (Offer.price (card_flight c))). intros n Hn.
  destruct c as [[a fl t p] from to].
  cbn [card_flight card_from card_to Offer.airline Offer.flight Offer.time] in *.
  repeat first
    [ rewrite feed_text by assumption
    | rewrite feed_value by assumption
    | match goal with
      | |- context [feed ?st (?lit +:+ ?rest)] =>
          let r := eval vm_compute in (feed st lit) in
          match r with
          | Some (?st', ?ts) => rewrite (feed_literal st st' ts lit rest eq_refl)
          end
      end ].
  reflexivity.
Qed.

Lemma onclick_of_card (c : card) :
  free_of [38; 39; 60] (Offer.airline (card_flight c)) = true ->
  free_of [38; 39; 60] (Offer.flight (card_flight c)) = true ->
  free_of [38; 39; 60] (Offer.time (card_flight c)) = true ->
  free_of [38; 60] (card_from c) = true ->
  free_of [38; 60] (card_to c) = true ->
  onclick_of (card_innerHTML c) = Some (book_onclick (card_flight c)).
Proof.
  intros Ha Hf Ht Hfrom Hto. unfold onclick_of.
  now rewrite tokenize_card.
Qed.

(** X17: a click on the Book button of a card, read from the markup of
    the whole card, selects the flight of the card, whenever the
    airline, the flight number and the time of the flight hold no [<],
    no [&] and no apostrophe, and the two cities of the card no [<] and
    no [&].  The cards a search shows are such, when the two city fields
    of the form hold no [<] and no [&]. *)
Theorem book_button_selects_card_flight :
  (forall (c : card) (s : page),
      free_of [38; 39; 60] (Offer.airline (card_flight c)) = true ->
      free_of [38; 39; 60] (Offer.flight (card_flight c)) = true ->
      free_of [38; 39; 60] (Offer.time (card_flight c)) = true ->
      free_of [38; 60] (card_from c) = true ->
      free_of [38; 60] (card_to c) = true ->
      clickBook c s = Some (openBooking (card_flight c) s)) /\
  (forall (s0 s : page) (fm : form) (d : draws) (c : card),
      timers s0 <> O ->
      free_of [38; 60] (from_value fm) = true ->
      free_of [38; 60] (to_value fm) = true ->
      In c (results (fst (step s0 (Timer fm d)))) ->
      clickBook c s = Some (openBooking (card_flight c) s)).
Proof.
  assert (Hsafe : forall c s,
             free_of [38; 39; 60] (Offer.airline (card_flight c)) = true ->
             free_of [38; 39; 60] (Offer.flight (card_flight c)) = true ->
             free_of [38; 39; 60] (Offer.time (card_flight c)) = true ->
             free_of [38; 60] (card_from c) = true ->
             free_of [38; 60] (card_to c) = true ->
             clickBook c s = Some (openBooking (card_flight c) s)).
  { intros c s Ha Hf Ht Hfrom Hto. unfold clickBook.
    rewrite onclick_of_card by assumption.
    now rewrite call_argument_onclick, offer_of_json_offer. }
  split; [exact Hsafe |].
  intros s0 s fm d c Ht Hfrom Hto Hc. rewrite results_of_callback in Hc by exact Ht.
  apply in_map_iff in Hc as (f & <- & Hf).
  unfold search, filtered in Hf. apply filter_In in Hf as [Hin _].
  apply Hsafe; cbn [card_flight card_from card_to]; try assumption;
    destruct Hin as [<- | [<- | [<- | []]]]; reflexivity.
Qed.

Lemma book_button_selects_card_flight_witness :
  clickBook (mkCard (Offer.mk "IndiGo" "6E305" "14:30" 5250) "DEL" "BOM") blank =
  Some (openBooking (Offer.mk "IndiGo" "6E305" "14:30" 5250) blank).
Proof.
  apply (proj1 book_button_selects_card_flight
           (mkCard (Offer.mk "IndiGo" "6E305" "14:30" 5250) "DEL" "BOM") blank);
    reflexivity.
Defined.

(** Outside these texts the markup of a card is not the template's: an
    origin that opens a tag with a quoted attribute takes the button
    into that attribute, and an apostrophe in the airline ends the
    handler text early.  The model gives no answer for such cards. *)
Example book_button_swallowed_by_origin :
  clickBook
    (mkCard (Offer.mk "IndiGo" "6E305" "14:30" 5250) "<a title='" "BOM") blank = None.
Proof. reflexivity. Qed.

Example book_button_broken_by_apostrophe :
  clickBook (mkCard (Offer.mk "O'Hare Air" "OH1" "10:00" 5000) "DEL" "BOM") blank = None.
Proof. reflexivity. Qed.

Example tags_of_card :
  tokenize (card_innerHTML (mkCard (Offer.mk "IndiGo" "6E305" "14:30" 5250) "DEL" "BOM")) =
  Some (card_tags (Offer.mk "IndiGo" "6E305" "14:30" 5250)).
Proof. reflexivity. Qed.

(** * The labels and forms of the page *)

Lemma priceValue_step (s : page) (e : event) :
  is_price_input e = false ->
  priceValue_innerText (fst (step s e)) = priceValue_innerText s.
Proof.
  destruct e; try reflexivity; try discriminate; intros _; cbn [step fst].
  - unfold searchCallback. now destruct (timers s).
  - unfold downloadReceipt. now destruct (bookingDetails s).
Qed.

Lemma priceValue_run (es : list event) :
  forall s, forallb (fun e => negb (is_price_input e)) es = true ->
            priceValue_innerText (run s es) = priceValue_innerText s.
Proof.
  induction es as [| e es IH]; intros s H; [reflexivity |].
  cbn [forallb] in H. apply andb_true_iff in H as [He Hes].
  rewrite run_cons, IH by exact Hes. apply priceValue_step.
  now destruct (is_price_input e).
Qed.

(** X18: the price label shows the value of the last move of the
    slider; searching, selecting, confirming and downloading never
    change it. *)
Theorem price_label_shows_last_input
    (s : page) (es1 es2 : list event) (value : string) :
  forallb (fun e => negb (is_price_input e)) es2 = true ->
  priceValue_innerText (run s (es1 ++ PriceInput value :: es2)) = value.
Proof.
  intros H. rewrite run_app, run_cons, priceValue_run by exact H. reflexivity.
Qed.

Lemma price_label_shows_last_input_witness :
  priceValue_innerText
    (run blank ([PriceInput "5000"]
                ++ PriceInput "7300" :: [Submit; ConfirmBooking "A" "a@x.com" 0 0])) = "7300".
Proof.
  apply (price_label_shows_last_input blank [PriceInput "5000"]
           [Submit; ConfirmBooking "A" "a@x.com" 0 0] "7300").
  reflexivity.
Defined.

Lemma bookingForm_step (s : page) (e : event) :
  is_open e = false -> is_confirm e = false ->
  bookingForm_display (fst (step s e)) = bookingForm_display s.
Proof.
  destruct e; try reflexivity; try discriminate; intros _ _; cbn [step fst].
  - unfold searchCallback. now destruct (timers s).
  - unfold downloadReceipt. now destruct (bookingDetails s).
Qed.

Lemma bookingForm_run (es : list event) :
  forall s, forallb (fun e => negb (is_open e) && negb (is_confirm e)) es = true ->
            bookingForm_display (run s es) = bookingForm_display s.
Proof.
  induction es as [| e es IH]; intros s H; [reflexivity |].
  cbn [forallb] in H. apply andb_true_iff in H as [He Hes].
  apply andb_true_iff in He as [H1 H2]. apply negb_true_iff in H1, H2.
  rewrite run_cons, IH by exact Hes. now apply bookingForm_step.
Qed.

(** X19: the booking form is shown from a selection until the next
    confirmation and hidden from a confirmation until the next
    selection; no other event touches it. *)
Theorem booking_form_follows_selection
    (s : page) (es1 es2 : list event) :
  forallb (fun e => negb (is_open e) && negb (is_confirm e)) es2 = true ->
  (forall f, bookingForm_display (run s (es1 ++ OpenBooking f :: es2)) = "block") /\
  (forall name email r now,
      bookingForm_display (run s (es1 ++ ConfirmBooking name email r now :: es2)) = "none").
Proof.
  intros H. split; intros; rewrite run_app, run_cons, bookingForm_run by exact H;
    reflexivity.
Qed.

Lemma booking_form_follows_selection_witness :
  (forall f, bookingForm_display
               (run blank ([Submit] ++ OpenBooking f :: [DownloadReceipt])) = "block") /\
  (forall name email r now,
      bookingForm_display
        (run blank ([Submit] ++ ConfirmBooking name email r now :: [DownloadReceipt]))
      = "none").
Proof.
  apply (booking_form_follows_selection blank [Submit] [DownloadReceipt]).
  reflexivity.
Defined.
